(** * Job tracker: the list controller of [script.js]

    A shallow embedding of the controller (state, cached DOM selectors,
    [updateDashboardCounts], [renderJobs], [toggleEmptyState], [updateUI],
    [handleTabClick], [handleJobAction], [deleteJob], [updateJobStatus],
    [init]) and the properties of its specification.

    Modelling choices.
    - A DOM element is a reference: element identities are numbers
      ([handle]) and what the script reads or writes of a job entry lives
      in one shared store, [elems].  A record of [state.jobs] holds the
      handle, as the script's record holds the element reference.
    - The document part the script depends on is [job_items], the
      [.job-item] elements currently inside the container, in document
      order: it is what [querySelectorAll(".job-item")] returns and what
      [element.remove()] shrinks.
    - Strings are sequences of code units below 256 (Latin-1); [trim] and
      [toLowerCase] are the JavaScript functions restricted to them.
    - Job entries are not nested in one another: removing one detaches no
      other.  The dashboard paragraphs, the count message, the tab buttons
      and the empty-state block are elements of their own, apart from the
      job entries.
    - Of the empty-state block only its class and display are kept; its
      [innerHTML] is a constant nothing reads.
    - A [TypeError] is the only exception the script can raise; both places
      where it can happen raise it before any write, so a throwing call is
      [None] and leaves the world as it was.
    - The load handler is [boot]: it registers the dashboard cards, runs
      [init], and can throw on a card without heading, a missing container
      or a missing tab bar; the world it leaves then is kept in [Failed]. *)

From Stdlib Require Import ZArith Ascii String DecimalString.
From stdpp Require Import gmap strings list fin_maps.

Local Open Scope string_scope.
Local Open Scope list_scope.

Abbreviation handle := nat (only parsing).

(** ** Strings *)

Module Str.

(** WhiteSpace and LineTerminator code points below 256:
    TAB, LF, VT, FF, CR, SP, NBSP. *)
Definition isWhiteSpace (c : ascii) : bool :=
  let n := nat_of_ascii c in
  (n =? 9)%nat || (n =? 10)%nat || (n =? 11)%nat || (n =? 12)%nat
  || (n =? 13)%nat || (n =? 32)%nat || (n =? 160)%nat.

Fixpoint trimStart (s : string) : string :=
  match s with
  | EmptyString => EmptyString
  | String c s' => if isWhiteSpace c then trimStart s' else s
  end.

Fixpoint trimEnd (s : string) : string :=
  match s with
  | EmptyString => EmptyString
  | String c s' =>
      match trimEnd s' with
      | EmptyString => if isWhiteSpace c then EmptyString else String c EmptyString
      | t => String c t
      end
  end.

(** [String.prototype.trim] *)
Definition trim (s : string) : string := trimEnd (trimStart s).

(** Lower-case mapping of one code unit: A-Z, and the Latin-1 capitals
    U+00C0..U+00DE except the multiplication sign U+00D7. *)
Definition lowerChar (c : ascii) : ascii :=
  let n := nat_of_ascii c in
  if ((65 <=? n)%nat && (n <=? 90)%nat)
     || ((192 <=? n)%nat && (n <=? 222)%nat && negb (n =? 215)%nat)
  then ascii_of_nat (n + 32)
  else c.

(** [String.prototype.toLowerCase] *)
Fixpoint toLowerCase (s : string) : string :=
  match s with
  | EmptyString => EmptyString
  | String c s' => String (lowerChar c) (toLowerCase s')
  end.

(** Number to string, as assigning a number to [textContent] or
    interpolating it in a template literal does (non-negative integers). *)
Definition ofNat (n : nat) : string := NilZero.string_of_uint (Nat.to_uint n).

End Str.

(** ** The page *)

(** The status badge: the [button] found in the third child block. *)
Record Badge := {
  badge_textContent : string;
  badge_className : string;
}.

(** What the script touches of one [.job-item] element.
    [third_child] is [children[2]]: [None] when the element has fewer than
    three children, [Some None] when that child holds no [button],
    [Some (Some b)] when [querySelector("button")] finds the badge [b]. *)
Record Element := {
  dataset_status : option string;
  style_display : string;
  third_child : option (option Badge);
}.

Definition set_dataset_status (s : string) (e : Element) : Element :=
  {| dataset_status := Some s;
     style_display := style_display e;
     third_child := third_child e |}.

Definition set_style_display (d : string) (e : Element) : Element :=
  {| dataset_status := dataset_status e;
     style_display := d;
     third_child := third_child e |}.

Definition set_third_child (t : option (option Badge)) (e : Element) : Element :=
  {| dataset_status := dataset_status e;
     style_display := style_display e;
     third_child := t |}.

(** The lazily built [.no-jobs-msg] block. *)
Record EmptyUI := {
  empty_className : string;
  empty_display : string;
}.

(** An entry of [state.jobs]. *)
Record Job := {
  element : handle;
  status : string;
}.

(** [state] and [DOM] together with the part of the document they point
    into.  An optional text is an element that may be missing
    ([querySelector] returned [null]) and otherwise has that
    [textContent]. *)
Record World := {
  (* state *)
  currentTab : string;
  jobs : list Job;
  (* document *)
  elems : gmap nat Element;
  job_items : list handle;
  emptyUI : option EmptyUI;
  (* DOM *)
  tabButtons : list (list string);
  countMsg : option string;
  dashboard_Total : option string;
  dashboard_Interview : option string;
  dashboard_Rejected : option string;
}.

Definition with_currentTab (t : string) (w : World) : World :=
  {| currentTab := t; jobs := jobs w; elems := elems w;
     job_items := job_items w; emptyUI := emptyUI w;
     tabButtons := tabButtons w; countMsg := countMsg w;
     dashboard_Total := dashboard_Total w;
     dashboard_Interview := dashboard_Interview w;
     dashboard_Rejected := dashboard_Rejected w |}.

Definition with_jobs (js : list Job) (w : World) : World :=
  {| currentTab := currentTab w; jobs := js; elems := elems w;
     job_items := job_items w; emptyUI := emptyUI w;
     tabButtons := tabButtons w; countMsg := countMsg w;
     dashboard_Total := dashboard_Total w;
     dashboard_Interview := dashboard_Interview w;
     dashboard_Rejected := dashboard_Rejected w |}.

Definition with_elems (m : gmap nat Element) (w : World) : World :=
  {| currentTab := currentTab w; jobs := jobs w; elems := m;
     job_items := job_items w; emptyUI := emptyUI w;
     tabButtons := tabButtons w; countMsg := countMsg w;
     dashboard_Total := dashboard_Total w;
     dashboard_Interview := dashboard_Interview w;
     dashboard_Rejected := dashboard_Rejected w |}.

Definition with_job_items (l : list handle) (w : World) : World :=
  {| currentTab := currentTab w; jobs := jobs w; elems := elems w;
     job_items := l; emptyUI := emptyUI w;
     tabButtons := tabButtons w; countMsg := countMsg w;
     dashboard_Total := dashboard_Total w;
     dashboard_Interview := dashboard_Interview w;
     dashboard_Rejected := dashboard_Rejected w |}.

Definition with_emptyUI (u : option EmptyUI) (w : World) : World :=
  {| currentTab := currentTab w; jobs := jobs w; elems := elems w;
     job_items := job_items w; emptyUI := u;
     tabButtons := tabButtons w; countMsg := countMsg w;
     dashboard_Total := dashboard_Total w;
     dashboard_Interview := dashboard_Interview w;
     dashboard_Rejected := dashboard_Rejected w |}.

Definition with_tabButtons (b : list (list string)) (w : World) : World :=
  {| currentTab := currentTab w; jobs := jobs w; elems := elems w;
     job_items := job_items w; emptyUI := emptyUI w;
     tabButtons := b; countMsg := countMsg w;
     dashboard_Total := dashboard_Total w;
     dashboard_Interview := dashboard_Interview w;
     dashboard_Rejected := dashboard_Rejected w |}.

Definition with_countMsg (c : option string) (w : World) : World :=
  {| currentTab := currentTab w; jobs := jobs w; elems := elems w;
     job_items := job_items w; emptyUI := emptyUI w;
     tabButtons := tabButtons w; countMsg := c;
     dashboard_Total := dashboard_Total w;
     dashboard_Interview := dashboard_Interview w;
     dashboard_Rejected := dashboard_Rejected w |}.

Definition with_dashboard (t i r : option string) (w : World) : World :=
  {| currentTab := currentTab w; jobs := jobs w; elems := elems w;
     job_items := job_items w; emptyUI := emptyUI w;
     tabButtons := tabButtons w; countMsg := countMsg w;
     dashboard_Total := t;
     dashboard_Interview := i;
     dashboard_Rejected := r |}.

(** [if (el) el.textContent = v]: the write happens when the element exists. *)
Definition write_text (v : string) (el : option string) : option string :=
  match el with
  | Some _ => Some v
  | None => None
  end.

(** ** Core logic and UI updates *)

(** The local [counts] object of [updateDashboardCounts]. *)
Record Counts := {
  Total : nat;
  Interview : nat;
  Rejected : nat;
}.

(** One iteration of the [forEach] of [updateDashboardCounts]. *)
Definition countJob (counts : Counts) (job : Job) : Counts :=
  let counts1 :=
    if String.eqb (status job) "Interview"
    then {| Total := Total counts; Interview := Interview counts + 1;
            Rejected := Rejected counts |}
    else counts in
  if String.eqb (status job) "Rejected"
  then {| Total := Total counts1; Interview := Interview counts1;
          Rejected := Rejected counts1 + 1 |}
  else counts1.

Definition dashboardCounts (js : list Job) : Counts :=
  fold_left countJob js {| Total := length js; Interview := 0; Rejected := 0 |}.

Definition updateDashboardCounts (w : World) : World :=
  let counts := dashboardCounts (jobs w) in
  with_dashboard
    (write_text (Str.ofNat (Total counts)) (dashboard_Total w))
    (write_text (Str.ofNat (Interview counts)) (dashboard_Interview w))
    (write_text (Str.ofNat (Rejected counts)) (dashboard_Rejected w))
    w.

(** The [isVisible] expression of [renderJobs]. *)
Definition isVisible (tab : string) (job : Job) : bool :=
  (String.eqb tab "All" && String.eqb (status job) "none")
  || String.eqb tab (status job).

(** One iteration of the [forEach] of [renderJobs], on the pair of the
    running [visibleCount] and the element store. *)
Definition renderJob (tab : string) (acc : nat * gmap nat Element) (job : Job)
  : nat * gmap nat Element :=
  let v := isVisible tab job in
  (if v then fst acc + 1 else fst acc,
   alter (set_style_display (if v then "block" else "none")) (element job) (snd acc)).

Definition emptyUI_className : string :=
  "no-jobs-msg flex flex-col items-center justify-center py-10 text-center space-y-4".

Definition toggleEmptyState (visibleCount : nat) (w : World) : World :=
  if (visibleCount =? 0)%nat then
    match emptyUI w with
    | None =>
        with_emptyUI
          (Some {| empty_className := emptyUI_className; empty_display := "flex" |}) w
    | Some ui =>
        with_emptyUI
          (Some {| empty_className := empty_className ui; empty_display := "flex" |}) w
    end
  else
    match emptyUI w with
    | Some ui =>
        with_emptyUI
          (Some {| empty_className := empty_className ui; empty_display := "none" |}) w
    | None => w
    end.

Definition renderJobs (w : World) : World :=
  let r := fold_left (renderJob (currentTab w)) (jobs w) (0, elems w) in
  let visibleCount := fst r in
  toggleEmptyState visibleCount
    (with_countMsg (write_text (Str.ofNat visibleCount +:+ " jobs") (countMsg w))
       (with_elems (snd r) w)).

Definition updateUI (w : World) : World :=
  renderJobs (updateDashboardCounts w).

(** ** Event handlers *)

(** [DOMTokenList.remove] and [DOMTokenList.add] on a class list. *)
Definition classList_remove (tokens : list string) (cl : list string) : list string :=
  filter (λ c, c ∉ tokens) cl.

Definition classList_add (tokens : list string) (cl : list string) : list string :=
  fold_left (λ acc t, if decide (t ∈ acc) then acc else acc ++ [t]) tokens cl.

(** What [handleTabClick] reads of [e.target]: its tag name, its text, and
    which of the cached [DOM.tabButtons] it is, if any. *)
Record TabEvent := {
  tab_tagName : string;
  tab_textContent : string;
  tab_button : option nat;
}.

Definition deemphasize (cl : list string) : list string :=
  classList_add ["btn-soft"] (classList_remove ["bg-[#3B82F6]"; "text-white"] cl).

Definition emphasize (cl : list string) : list string :=
  classList_add ["bg-[#3B82F6]"; "text-white"] (classList_remove ["btn-soft"] cl).

Definition handleTabClick (e : TabEvent) (w : World) : World :=
  if negb (String.eqb (tab_tagName e) "BUTTON") then w
  else
    let reset := deemphasize <$> tabButtons w in
    let btns :=
      match tab_button e with
      | Some i => alter emphasize i reset
      | None => reset
      end in
    renderJobs
      (with_currentTab (Str.trim (tab_textContent e)) (with_tabButtons btns w)).

(** [Array.prototype.findIndex], counting from [k]. *)
Fixpoint findIndex_from (p : Job → bool) (js : list Job) (k : Z) : Z :=
  match js with
  | [] => (-1)%Z
  | j :: js' => if p j then k else findIndex_from p js' (k + 1)%Z
  end.

Definition findIndex (p : Job → bool) (js : list Job) : Z :=
  findIndex_from p js 0%Z.

(** [arr[index]] for an integer index: [None] is [undefined]. *)
Definition jobAt (js : list Job) (index : Z) : option Job :=
  if (index <? 0)%Z then None else js !! Z.to_nat index.

Definition badge_green : string :=
  "btn btn-soft bg-[#10B981] text-white border-none w-max px-4".

Definition badge_red : string :=
  "btn btn-soft bg-[#EF4444] text-white border-none w-max px-4".

(** The [if (badgeBtn)] block of [updateJobStatus]. *)
Definition restyleBadge (newStatus : string) (e : Element) : Element :=
  match third_child e with
  | Some (Some _) =>
      set_third_child
        (Some (Some {| badge_textContent := newStatus;
                       badge_className :=
                         if String.eqb newStatus "Interview"
                         then badge_green else badge_red |})) e
  | _ => e
  end.

(** [deleteJob(index)].  [state.jobs[index].element] throws on
    [undefined], before anything is written. *)
Definition deleteJob (index : Z) (w : World) : option World :=
  match jobAt (jobs w) index with
  | None => None
  | Some job =>
      let items := filter (λ h, h ≠ element job) (job_items w) in
      let js := delete (Z.to_nat index) (jobs w) in
      Some (updateUI (with_jobs js (with_job_items items w)))
  end.

(** The local [newStatus] of [updateJobStatus]. *)
Definition newStatus (newStatusLabel : string) : string :=
  if String.eqb newStatusLabel "interview" then "Interview" else "Rejected".

(** [updateJobStatus(index, newStatusLabel)].  [job.status = ...] throws
    on [undefined], before anything is written. *)
Definition updateJobStatus (index : Z) (newStatusLabel : string) (w : World)
  : option World :=
  match jobAt (jobs w) index with
  | None => None
  | Some job =>
      let js :=
        <[Z.to_nat index := {| element := element job;
                               status := newStatus newStatusLabel |}]> (jobs w) in
      let m :=
        alter (λ e, restyleBadge (newStatus newStatusLabel)
                      (set_dataset_status (newStatus newStatusLabel) e))
          (element job) (elems w) in
      Some (updateUI (with_elems m (with_jobs js w)))
  end.

(** What [handleJobAction] reads of [e.target]: the three [closest]
    look-ups, the tag name and the text. *)
Record JobEvent := {
  closest_job_item : option handle;
  closest_fa_trash : bool;
  closest_border_rounded_full : bool;
  tagName : string;
  textContent : string;
}.

Definition handleJobAction (e : JobEvent) (w : World) : option World :=
  match closest_job_item e with
  | None => Some w
  | Some jobEl =>
      let jobIndex := findIndex (λ j, Nat.eqb (element j) jobEl) (jobs w) in
      if (jobIndex =? -1)%Z then Some w
      else
        let isDeleteAction := closest_fa_trash e || closest_border_rounded_full e in
        if isDeleteAction then deleteJob jobIndex w
        else if String.eqb (tagName e) "BUTTON" then
          let btnText := Str.toLowerCase (Str.trim (textContent e)) in
          if String.eqb btnText "interview" || String.eqb btnText "rejected"
          then updateJobStatus jobIndex btnText w
          else Some w
        else Some w
  end.

(** ** Initialization *)

(** One iteration of the [forEach] of [init]. *)
Definition pushJob (w : World) (el : handle) : World :=
  with_elems (alter (set_dataset_status "none") el (elems w))
    (with_jobs (jobs w ++ [{| element := el; status := "none" |}]) w).

(** [init()] on a freshly loaded page [doc]: the [state] object starts as
    [{ currentTab: "All", jobs: [] }] whatever [doc] carries there. *)
Definition init (doc : World) : World :=
  let jobElements := job_items doc in
  updateUI (fold_left pushJob jobElements (with_jobs [] (with_currentTab "All" doc))).

(** ** Page load *)

(** A dashboard card as the loader reads it: the text of its first [h3]
    and the text of its first [p], each [None] when the card has none. *)
Record Card := {
  card_h3 : option string;
  card_p : option string;
}.

(** [DOM.dashboard] as declared: the three keys, each [null].  A key
    holds [Some t] for a paragraph whose text is [t]. *)
Definition DOM_dashboard : gmap string (option string) :=
  <["Total" := None]> (<["Interview" := None]> (<["Rejected" := None]> ∅)).

(** The [forEach] over the dashboard cards.  For a card without heading
    [card.querySelector("h3")] is [null] and reading its [textContent]
    throws: the flag is [false] and the later cards are not visited. *)
Fixpoint registerCards (cards : list Card) (dashboard : gmap string (option string))
  : gmap string (option string) * bool :=
  match cards with
  | [] => (dashboard, true)
  | card :: rest =>
      match card_h3 card with
      | None => (dashboard, false)
      | Some text =>
          registerCards rest (<[Str.trim text := card_p card]> dashboard)
      end
  end.

(** [DOM.dashboard[key]] read as an element, for a key the object owns
    (the three declared keys are the only ones the script reads): missing
    when the key holds [null].  Keys the object would inherit from
    [Object.prototype] are outside the model. *)
Definition display_of (dashboard : gmap string (option string)) (key : string)
  : option string :=
  dashboard !! key ≫= id.

(** What the load handler finds: the dashboard cards, whether the
    container [.all-job] and the tab bar [#tab-buttons] exist, and the rest
    of the document ([page_doc]; its state and dashboard fields are not
    read). *)
Record Page := {
  page_cards : list Card;
  page_container : bool;
  page_tabs : bool;
  page_doc : World;
}.

(** The handler either runs to its end, or throws and leaves the world as
    it is at that point, with no listener attached. *)
Inductive Boot :=
  | Started (w : World)
  | Failed (w : World).

(** The [DOMContentLoaded] handler: [state] and [DOM] are built, the
    dashboard cards registered, then [init()] runs; [init] throws at
    [DOM.container.querySelectorAll] without a container, and
    [setupEventListeners] throws at [DOM.tabs.addEventListener] without a
    tab bar, after the records were pushed and before [updateUI]. *)
Definition boot (p : Page) : Boot :=
  let registered := registerCards (page_cards p) DOM_dashboard in
  let doc :=
    with_jobs [] (with_currentTab "All"
      (with_dashboard
         (display_of (fst registered) "Total")
         (display_of (fst registered) "Interview")
         (display_of (fst registered) "Rejected")
         (page_doc p))) in
  if negb (snd registered) then Failed doc
  else if negb (page_container p) then Failed doc
  else
    let pushed := fold_left pushJob (job_items doc) doc in
    if negb (page_tabs p) then Failed pushed
    else Started (updateUI pushed).

(** ** Sessions *)

(** The ways the controller is driven: the two delegated listeners, and
    the two mutations called directly. *)
Inductive Op :=
  | TabClick (e : TabEvent)
  | JobClick (e : JobEvent)
  | CallUpdateJobStatus (index : Z) (newStatusLabel : string)
  | CallDeleteJob (index : Z).

(** A throwing call leaves the world as it was. *)
Definition settle (w : World) (r : option World) : World :=
  match r with
  | Some w' => w'
  | None => w
  end.

Definition step (w : World) (op : Op) : World :=
  match op with
  | TabClick e => handleTabClick e w
  | JobClick e => settle w (handleJobAction e w)
  | CallUpdateJobStatus index label => settle w (updateJobStatus index label w)
  | CallDeleteJob index => settle w (deleteJob index w)
  end.

Definition run (w : World) (ops : list Op) : World := fold_left step ops w.

(** ** Invariants *)

(** The document is well formed: an element occurs once in the tree, and
    every handle denotes an element. *)
Definition doc_wf (w : World) : Prop :=
  NoDup (job_items w) ∧ Forall (λ h, is_Some (elems w !! h)) (job_items w).

(** The status tag of the element a record points to. *)
Definition tag_of (w : World) (job : Job) : option string :=
  elems w !! element job ≫= dataset_status.

(** The collection mirrors the document: the records' elements are the
    attached job entries, one record each and in document order, and every
    element carries its record's status as tag. *)
Definition synced (w : World) : Prop :=
  element <$> jobs w = job_items w
  ∧ Forall (λ job, tag_of w job = Some (status job)) (jobs w).

(** The three values the state comment lists for a record's status. *)
Definition valid_status (s : string) : Prop :=
  s = "none" ∨ s = "Interview" ∨ s = "Rejected".

(** The three values the state comment lists for [currentTab]. *)
Definition valid_tab (t : string) : Prop :=
  t = "All" ∨ t = "Interview" ∨ t = "Rejected".

(** What every session keeps true. *)
Definition inv (w : World) : Prop := doc_wf w ∧ synced w.

Definition valid_jobs (w : World) : Prop :=
  Forall (λ job, valid_status (status job)) (jobs w).

(** * Notions the statements are written in *)

(** Number of records holding status [s]. *)
Definition countStatus (s : string) (js : list Job) : nat :=
  length (filter (λ job, status job = s) js).

(** The store after the [forEach] of [renderJobs]. *)
Definition renderElems (tab : string) (js : list Job) (m : gmap nat Element)
  : gmap nat Element :=
  fold_left
    (λ m job,
       alter (set_style_display (if isVisible tab job then "block" else "none"))
         (element job) m)
    js m.

(** Number of records the rule of [renderJobs] shows. *)
Definition visibleCount (tab : string) (js : list Job) : nat :=
  length (filter (λ job, isVisible tab job = true) js).

(** The display the rendering pass leaves on element [h]: the one written
    for the last record pointing to [h], if any. *)
Definition displayOf (tab : string) (js : list Job) (h : handle) : option string :=
  fold_left
    (λ acc job,
       if decide (element job = h)
       then Some (if isVisible tab job then "block" else "none")
       else acc)
    js None.

(** Writing that display, if any, on an element. *)
Definition paint (d : option string) (e : Element) : Element :=
  match d with
  | Some v => set_style_display v e
  | None => e
  end.

(** What [toggleEmptyState] leaves of the empty-state block. *)
Definition toggled (visibleCount : nat) (ui : option EmptyUI) : option EmptyUI :=
  if (visibleCount =? 0)%nat then
    match ui with
    | None => Some {| empty_className := emptyUI_className; empty_display := "flex" |}
    | Some ui => Some {| empty_className := empty_className ui; empty_display := "flex" |}
    end
  else
    match ui with
    | Some ui => Some {| empty_className := empty_className ui; empty_display := "none" |}
    | None => None
    end.

(** The store after the [forEach] of [init]. *)
Definition tagAll (l : list handle) (m : gmap nat Element) : gmap nat Element :=
  fold_left (λ m el, alter (set_dataset_status "none") el m) l m.

(** The record [init] pushes for an element. *)
Definition freshJob (el : handle) : Job := {| element := el; status := "none" |}.

(** An element is shown when its display is ["block"], hidden when it is
    ["none"]; [renderJobs] writes nothing else. *)
Definition shown (w : World) (job : Job) : Prop :=
  style_display <$> elems w !! element job = Some "block".


#[global] Instance shown_dec w job : Decision (shown w job).
Proof. unfold shown. apply _. Defined.

(** The click landed in a delete affordance: inside a [.fa-trash] icon
    or inside a [div.border.rounded-full]. *)
Definition in_delete_region (e : JobEvent) : Prop :=
  closest_fa_trash e = true ∨ closest_border_rounded_full e = true.

(** The click target is a button whose trimmed, lower-cased label is
    [label], one of ["interview"] and ["rejected"]. *)
Definition is_status_control (e : JobEvent) (label : string) : Prop :=
  tagName e = "BUTTON"
  ∧ label = Str.toLowerCase (Str.trim (textContent e))
  ∧ (label = "interview" ∨ label = "rejected").

(** One dashboard display after a recomputation that found [n]: a
    missing element stays missing, an existing one shows [n]. *)
Definition display_shows (before after : option string) (n : nat) : Prop :=
  (before = None → after = None)
  ∧ (is_Some before → after = Some (Str.ofNat n)).

(** The three displays of [after] show the counts of the collection of
    [after]. *)
Definition dashboard_recomputed (before after : World) : Prop :=
  display_shows (dashboard_Total before) (dashboard_Total after)
    (length (jobs after))
  ∧ display_shows (dashboard_Interview before) (dashboard_Interview after)
      (countStatus "Interview" (jobs after))
  ∧ display_shows (dashboard_Rejected before) (dashboard_Rejected after)
      (countStatus "Rejected" (jobs after)).


(** The empty-state block fits the view: shown when nothing is visible,
    hidden or not built when something is. *)
Definition empty_state_fits (w : World) : Prop :=
  match emptyUI w with
  | Some ui =>
      empty_display ui
      = if (visibleCount (currentTab w) (jobs w) =? 0)%nat then "flex" else "none"
  | None => visibleCount (currentTab w) (jobs w) ≠ 0
  end.

(** What the count message reads when the view is up to date. *)
Definition count_text (w : World) : string :=
  Str.ofNat (visibleCount (currentTab w) (jobs w)) +:+ " jobs".

(** The class lists of the tab buttons after a click on [target]. *)
Definition highlighted (target : option nat) (tb : list (list string))
  : list (list string) :=
  match target with
  | Some i => alter emphasize i (deemphasize <$> tb)
  | None => deemphasize <$> tb
  end.

(** The card is titled [key], once its heading is trimmed. *)
Definition titled (key : string) (card : Card) : Prop :=
  Str.trim <$> card_h3 card = Some key.

#[global] Instance titled_dec key card : Decision (titled key card).
Proof. unfold titled. apply _. Defined.

(** The document [init] starts from once the dashboard cards are
    registered: each display is the paragraph of the last card titled
    with its key. *)
Definition registered_doc (p : Page) : World :=
  with_dashboard
    (last (filter (titled "Total") (page_cards p)) ≫= card_p)
    (last (filter (titled "Interview") (page_cards p)) ≫= card_p)
    (last (filter (titled "Rejected") (page_cards p)) ≫= card_p)
    (page_doc p).

(** The steps that can touch the collection: everything but a tab click. *)
Definition touchesData (op : Op) : bool :=
  match op with
  | TabClick _ => false
  | _ => true
  end.

(** * Sample pages and clicks *)

(** ** Scenario of the specification: three jobs, all untouched *)

Module Scenario.

Definition card : Element :=
  {| dataset_status := None; style_display := "";
     third_child :=
       Some (Some {| badge_textContent := "Not Applied"; badge_className := "btn" |}) |}.

Definition page : World :=
  {| currentTab := ""; jobs := [];
     elems := <[10 := card]> (<[11 := card]> (<[12 := card]> ∅));
     job_items := [10; 11; 12];
     emptyUI := None;
     tabButtons := [["bg-[#3B82F6]"; "text-white"]; ["btn-soft"]; ["btn-soft"]];
     countMsg := Some "";
     dashboard_Total := Some "";
     dashboard_Interview := Some "";
     dashboard_Rejected := Some "" |}.

Definition click_interview (h : handle) : JobEvent :=
  {| closest_job_item := Some h; closest_fa_trash := false;
     closest_border_rounded_full := false;
     tagName := "BUTTON"; textContent := " Interview " |}.

Definition click_trash (h : handle) : JobEvent :=
  {| closest_job_item := Some h; closest_fa_trash := true;
     closest_border_rounded_full := false;
     tagName := "I"; textContent := "" |}.

Definition click_tab (i : nat) (label : string) : TabEvent :=
  {| tab_tagName := "BUTTON"; tab_textContent := label; tab_button := Some i |}.

(** A session with a stale index in it: the call [deleteJob(7)] throws. *)
Definition session : list Op :=
  [ JobClick (click_interview 12);
    TabClick (click_tab 1 "Interview");
    JobClick (click_trash 11);
    CallDeleteJob 7;
    CallUpdateJobStatus 0 "rejected" ].

End Scenario.

(** The visibility example of the specification: statuses
    [none, Interview, Rejected, none]. *)
Module Mixed.

Definition card (s : string) : Element :=
  {| dataset_status := Some s; style_display := ""; third_child := Some None |}.

Definition board (tab : string) : World :=
  {| currentTab := tab;
     jobs := [ {| element := 0; status := "none" |};
               {| element := 1; status := "Interview" |};
               {| element := 2; status := "Rejected" |};
               {| element := 3; status := "none" |} ];
     elems := <[0 := card "none"]> (<[1 := card "Interview"]>
                (<[2 := card "Rejected"]> (<[3 := card "none"]> ∅)));
     job_items := [0; 1; 2; 3];
     emptyUI := None;
     tabButtons := [];
     countMsg := Some "";
     dashboard_Total := None;
     dashboard_Interview := None;
     dashboard_Rejected := None |}.

End Mixed.

(** A dashboard with two cards titled "Total" and none titled
    "Rejected". *)
Definition doubled_cards : list Card :=
  [ {| card_h3 := Some " Total "; card_p := Some "first" |};
    {| card_h3 := Some "Interview"; card_p := Some "-" |};
    {| card_h3 := Some "Total"; card_p := Some "second" |} ].

(** The scenario page with that dashboard, a container and a tab bar. *)
Definition loaded_page : Page :=
  {| page_cards := doubled_cards; page_container := true; page_tabs := true;
     page_doc := Scenario.page |}.

(** The same page without its tab bar, and without its job container. *)
Definition tabless_page : Page :=
  {| page_cards := doubled_cards; page_container := true; page_tabs := false;
     page_doc := Scenario.page |}.

Definition containerless_page : Page :=
  {| page_cards := doubled_cards; page_container := false; page_tabs := true;
     page_doc := Scenario.page |}.

(** A button labelled "Interview" placed inside the trash affordance of
    the second card: the click deletes, it does not move the job. *)
Definition trash_labelled_interview : JobEvent :=
  {| closest_job_item := Some 11; closest_fa_trash := true;
     closest_border_rounded_full := false;
     tagName := "BUTTON"; textContent := "Interview" |}.

(** A card whose markup lacks the third child. *)
Definition bare_card : Element :=
  {| dataset_status := Some "none"; style_display := "block"; third_child := None |}.

Definition bare_board : World :=
  {| currentTab := "All";
     jobs := [ {| element := 5; status := "none" |} ];
     elems := <[5 := bare_card]> ∅;
     job_items := [5];
     emptyUI := None;
     tabButtons := [];
     countMsg := None;
     dashboard_Total := None;
     dashboard_Interview := Some "0";
     dashboard_Rejected := None |}.

(** * Properties *)

(** ** Frame lemmas: which fields each routine leaves alone *)

Ltac unfold_ui :=
  unfold updateUI, renderJobs, toggleEmptyState, updateDashboardCounts,
    with_dashboard, with_countMsg, with_elems, with_emptyUI, with_jobs,
    with_job_items, with_currentTab, with_tabButtons.

Ltac frame_solve :=
  intros; unfold_ui; simpl;
  repeat match goal with
         | |- context [if ?b then _ else _] => destruct b; simpl
         | |- context [match emptyUI ?w with _ => _ end] => destruct (emptyUI w); simpl
         end;
  reflexivity.

Lemma updateDashboardCounts_jobs w : jobs (updateDashboardCounts w) = jobs w.
Proof. reflexivity. Qed.

Lemma updateDashboardCounts_currentTab w :
  currentTab (updateDashboardCounts w) = currentTab w.
Proof. reflexivity. Qed.

Lemma updateDashboardCounts_elems w : elems (updateDashboardCounts w) = elems w.
Proof. reflexivity. Qed.

Lemma renderJobs_jobs w : jobs (renderJobs w) = jobs w.
Proof. frame_solve. Qed.

Lemma renderJobs_currentTab w : currentTab (renderJobs w) = currentTab w.
Proof. frame_solve. Qed.

Lemma renderJobs_job_items w : job_items (renderJobs w) = job_items w.
Proof. frame_solve. Qed.

Lemma renderJobs_tabButtons w : tabButtons (renderJobs w) = tabButtons w.
Proof. frame_solve. Qed.

Lemma renderJobs_dashboard w :
  dashboard_Total (renderJobs w) = dashboard_Total w
  ∧ dashboard_Interview (renderJobs w) = dashboard_Interview w
  ∧ dashboard_Rejected (renderJobs w) = dashboard_Rejected w.
Proof. repeat split; frame_solve. Qed.

Lemma updateUI_jobs w : jobs (updateUI w) = jobs w.
Proof. unfold updateUI. by rewrite renderJobs_jobs. Qed.

Lemma updateUI_currentTab w : currentTab (updateUI w) = currentTab w.
Proof. unfold updateUI. by rewrite renderJobs_currentTab. Qed.

Lemma updateUI_job_items w : job_items (updateUI w) = job_items w.
Proof. unfold updateUI. by rewrite renderJobs_job_items. Qed.

Lemma updateUI_tabButtons w : tabButtons (updateUI w) = tabButtons w.
Proof. unfold updateUI. by rewrite renderJobs_tabButtons. Qed.

(** ** The counting pass *)

Lemma countStatus_cons s job js :
  countStatus s (job :: js)
  = (if decide (status job = s) then 1 else 0) + countStatus s js.
Proof.
  unfold countStatus. rewrite filter_cons. by case_decide.
Qed.

Lemma countStatus_app s js1 js2 :
  countStatus s (js1 ++ js2) = countStatus s js1 + countStatus s js2.
Proof. unfold countStatus. by rewrite filter_app, length_app. Qed.

Lemma eqb_decide (s t : string) :
  String.eqb s t = bool_decide (s = t).
Proof.
  destruct (String.eqb_spec s t);
    [by rewrite bool_decide_eq_true_2 | by rewrite bool_decide_eq_false_2].
Qed.

Lemma countJob_fold js c :
  fold_left countJob js c
  = {| Total := Total c;
       Interview := Interview c + countStatus "Interview" js;
       Rejected := Rejected c + countStatus "Rejected" js |}.
Proof.
  revert c. induction js as [|job js IH]; intros c; simpl.
  - destruct c; simpl. f_equal; unfold countStatus; simpl; lia.
  - rewrite IH, !countStatus_cons. unfold countJob.
    rewrite !eqb_decide.
    destruct (decide (status job = "Interview")) as [Hi|Hi];
      destruct (decide (status job = "Rejected")) as [Hr|Hr];
      try (rewrite Hi in Hr; discriminate);
      rewrite ?(bool_decide_eq_true_2 _ Hi), ?(bool_decide_eq_false_2 _ Hi),
        ?(bool_decide_eq_true_2 _ Hr), ?(bool_decide_eq_false_2 _ Hr);
      simpl; f_equal; lia.
Qed.

Lemma dashboardCounts_spec js :
  dashboardCounts js
  = {| Total := length js;
       Interview := countStatus "Interview" js;
       Rejected := countStatus "Rejected" js |}.
Proof. unfold dashboardCounts. by rewrite countJob_fold. Qed.

(** ** The rendering pass *)

Lemma renderJob_fold tab js n m :
  fold_left (renderJob tab) js (n, m)
  = (n + visibleCount tab js, renderElems tab js m).
Proof.
  revert n m. induction js as [|job js IH]; intros n m; simpl.
  - unfold visibleCount. simpl. f_equal. lia.
  - unfold renderJob at 2. simpl. rewrite IH. unfold visibleCount.
    rewrite filter_cons. destruct (isVisible tab job); simpl; f_equal; lia.
Qed.

Lemma renderElems_lookup tab js m h :
  renderElems tab js m !! h = paint (displayOf tab js h) <$> m !! h.
Proof.
  induction js as [|job js IH] using rev_ind.
  - simpl. by destruct (m !! h).
  - unfold renderElems, displayOf in *. rewrite !fold_left_app. simpl.
    rewrite lookup_alter. destruct (decide (element job = h)) as [->|Hne].
    + rewrite IH.
      destruct (m !! h) as [e|]; simpl; [|done].
      f_equal. by destruct (fold_left _ js None).
    + apply IH.
Qed.

Lemma displayOf_notin tab js h :
  h ∉ element <$> js → displayOf tab js h = None.
Proof.
  induction js as [|job js IH] using rev_ind; [done|].
  intros Hn. unfold displayOf in *. rewrite fold_left_app. simpl.
  rewrite fmap_app in Hn. apply not_elem_of_app in Hn as [Hn1 Hn2].
  rewrite decide_False; [by apply IH|].
  intros Heq. apply Hn2. simpl. rewrite Heq. by apply list_elem_of_singleton.
Qed.


Lemma renderJobs_eq w :
  renderJobs w
  = toggleEmptyState (visibleCount (currentTab w) (jobs w))
      (with_countMsg
         (write_text (Str.ofNat (visibleCount (currentTab w) (jobs w)) +:+ " jobs")
            (countMsg w))
         (with_elems (renderElems (currentTab w) (jobs w) (elems w)) w)).
Proof. unfold renderJobs. by rewrite renderJob_fold. Qed.

Lemma renderJobs_elems w :
  elems (renderJobs w) = renderElems (currentTab w) (jobs w) (elems w).
Proof. rewrite renderJobs_eq. frame_solve. Qed.

Lemma renderJobs_countMsg w :
  countMsg (renderJobs w)
  = write_text (Str.ofNat (visibleCount (currentTab w) (jobs w)) +:+ " jobs")
      (countMsg w).
Proof. rewrite renderJobs_eq. frame_solve. Qed.

Lemma paint_idem d e : paint d (paint d e) = paint d e.
Proof. by destruct d. Qed.

Lemma renderElems_idem tab js m :
  renderElems tab js (renderElems tab js m) = renderElems tab js m.
Proof.
  apply map_eq. intros h. rewrite !renderElems_lookup.
  destruct (m !! h); simpl; [|done]. by rewrite paint_idem.
Qed.

Lemma write_text_idem v el : write_text v (write_text v el) = write_text v el.
Proof. by destruct el. Qed.

Lemma toggleEmptyState_emptyUI n w :
  emptyUI (toggleEmptyState n w) = toggled n (emptyUI w).
Proof.
  unfold toggleEmptyState, toggled.
  destruct (n =? 0)%nat; by destruct (emptyUI w) eqn:Hui.
Qed.

Lemma renderJobs_emptyUI w :
  emptyUI (renderJobs w)
  = toggled (visibleCount (currentTab w) (jobs w)) (emptyUI w).
Proof. rewrite renderJobs_eq. by rewrite toggleEmptyState_emptyUI. Qed.

Lemma toggled_idem n ui : toggled n (toggled n ui) = toggled n ui.
Proof. unfold toggled. destruct (n =? 0)%nat; by destruct ui. Qed.

Lemma World_eq (w w' : World) :
  currentTab w = currentTab w' → jobs w = jobs w' → elems w = elems w' →
  job_items w = job_items w' → emptyUI w = emptyUI w' →
  tabButtons w = tabButtons w' → countMsg w = countMsg w' →
  dashboard_Total w = dashboard_Total w' →
  dashboard_Interview w = dashboard_Interview w' →
  dashboard_Rejected w = dashboard_Rejected w' →
  w = w'.
Proof. destruct w, w'. cbn. intros. by subst. Qed.

Lemma renderJobs_idem w : renderJobs (renderJobs w) = renderJobs w.
Proof.
  destruct (renderJobs_dashboard (renderJobs w)) as (Ht & Hi & Hr).
  apply World_eq; try done.
  - by rewrite renderJobs_currentTab.
  - by rewrite renderJobs_jobs.
  - by rewrite !renderJobs_elems, renderJobs_currentTab, renderJobs_jobs,
      renderElems_idem.
  - by rewrite renderJobs_job_items.
  - by rewrite !renderJobs_emptyUI, renderJobs_currentTab, renderJobs_jobs,
      toggled_idem.
  - by rewrite renderJobs_tabButtons.
  - by rewrite !renderJobs_countMsg, renderJobs_currentTab, renderJobs_jobs,
      write_text_idem.
Qed.

Lemma updateDashboardCounts_idem w :
  updateDashboardCounts (updateDashboardCounts w) = updateDashboardCounts w.
Proof.
  apply World_eq; try done; cbn; by rewrite write_text_idem.
Qed.

Lemma updateDashboardCounts_renderJobs w :
  updateDashboardCounts (renderJobs w) = renderJobs (updateDashboardCounts w).
Proof.
  destruct (renderJobs_dashboard (updateDashboardCounts w)) as (Ht & Hi & Hr).
  destruct (renderJobs_dashboard w) as (Ht' & Hi' & Hr').
  apply World_eq.
  - by rewrite updateDashboardCounts_currentTab, !renderJobs_currentTab.
  - by rewrite updateDashboardCounts_jobs, !renderJobs_jobs.
  - by rewrite updateDashboardCounts_elems, !renderJobs_elems.
  - change (job_items (updateDashboardCounts (renderJobs w)))
      with (job_items (renderJobs w)). by rewrite !renderJobs_job_items.
  - change (emptyUI (updateDashboardCounts (renderJobs w)))
      with (emptyUI (renderJobs w)). by rewrite !renderJobs_emptyUI.
  - change (tabButtons (updateDashboardCounts (renderJobs w)))
      with (tabButtons (renderJobs w)). by rewrite !renderJobs_tabButtons.
  - change (countMsg (updateDashboardCounts (renderJobs w)))
      with (countMsg (renderJobs w)). by rewrite !renderJobs_countMsg.
  - rewrite Ht. unfold updateDashboardCounts at 1. cbn [dashboard_Total with_dashboard].
    by rewrite renderJobs_jobs, Ht'.
  - rewrite Hi. unfold updateDashboardCounts at 1. cbn [dashboard_Interview with_dashboard].
    by rewrite renderJobs_jobs, Hi'.
  - rewrite Hr. unfold updateDashboardCounts at 1. cbn [dashboard_Rejected with_dashboard].
    by rewrite renderJobs_jobs, Hr'.
Qed.

Lemma updateUI_idem w : updateUI (updateUI w) = updateUI w.
Proof.
  unfold updateUI.
  by rewrite updateDashboardCounts_renderJobs, updateDashboardCounts_idem,
    renderJobs_idem.
Qed.

Lemma updateUI_elems w :
  elems (updateUI w) = renderElems (currentTab w) (jobs w) (elems w).
Proof. unfold updateUI. by rewrite renderJobs_elems. Qed.

Lemma updateUI_dashboard w :
  dashboard_Total (updateUI w)
  = write_text (Str.ofNat (length (jobs w))) (dashboard_Total w)
  ∧ dashboard_Interview (updateUI w)
    = write_text (Str.ofNat (countStatus "Interview" (jobs w))) (dashboard_Interview w)
  ∧ dashboard_Rejected (updateUI w)
    = write_text (Str.ofNat (countStatus "Rejected" (jobs w))) (dashboard_Rejected w).
Proof.
  unfold updateUI.
  destruct (renderJobs_dashboard (updateDashboardCounts w)) as (-> & -> & ->).
  unfold updateDashboardCounts. rewrite dashboardCounts_spec. by simpl.
Qed.

(** The rendering pass writes displays only. *)
Lemma renderElems_tag tab js m h :
  renderElems tab js m !! h ≫= dataset_status = m !! h ≫= dataset_status.
Proof.
  rewrite renderElems_lookup. destruct (m !! h); simpl; [|done].
  by destruct (displayOf tab js h).
Qed.

Lemma renderElems_third_child tab js m h :
  third_child <$> renderElems tab js m !! h = third_child <$> m !! h.
Proof.
  rewrite renderElems_lookup. destruct (m !! h); simpl; [|done].
  by destruct (displayOf tab js h).
Qed.

Lemma renderElems_is_Some tab js m h :
  is_Some (renderElems tab js m !! h) ↔ is_Some (m !! h).
Proof. rewrite renderElems_lookup. by rewrite fmap_is_Some. Qed.

(** ** Array access *)

Lemma jobAt_Some js index job :
  jobAt js index = Some job ↔ (0 ≤ index)%Z ∧ js !! Z.to_nat index = Some job.
Proof.
  unfold jobAt. destruct (Z.ltb_spec index 0); split.
  - done.
  - intros [? _]. lia.
  - intros. split; [lia|done].
  - by intros [_ ?].
Qed.

Lemma jobAt_valid js index :
  (0 ≤ index < Z.of_nat (length js))%Z → is_Some (jobAt js index).
Proof.
  intros [H0 Hlt]. unfold jobAt.
  destruct (Z.ltb_spec index 0); [lia|].
  apply lookup_lt_is_Some. lia.
Qed.

Lemma jobAt_invalid js index :
  ¬ (0 ≤ index < Z.of_nat (length js))%Z → jobAt js index = None.
Proof.
  intros Hn. unfold jobAt. destruct (Z.ltb_spec index 0); [done|].
  apply lookup_ge_None. lia.
Qed.

Lemma findIndex_from_spec p js k :
  (0 ≤ k)%Z →
  match list_find (λ job, p job = true) js with
  | Some (i, _) => findIndex_from p js k = (k + Z.of_nat i)%Z
  | None => findIndex_from p js k = (-1)%Z
  end.
Proof.
  revert k. induction js as [|job js IH]; intros k Hk; simpl; [done|].
  destruct (p job) eqn:Hp.
  - rewrite decide_True by done. simpl. lia.
  - rewrite decide_False by done. specialize (IH (k + 1)%Z ltac:(lia)).
    destruct (list_find _ js) as [[i j]|]; simpl; [lia|done].
Qed.

Lemma findIndex_None p js :
  findIndex p js = (-1)%Z ↔ Forall (λ job, p job = false) js.
Proof.
  unfold findIndex. pose proof (findIndex_from_spec p js 0 ltac:(lia)) as H.
  destruct (list_find _ js) as [[i job]|] eqn:Hf.
  - apply list_find_Some in Hf as (Hi & Hp & _). split; [lia|].
    intros Hall. eapply Forall_lookup_1 in Hall; [|done]. congruence.
  - apply list_find_None in Hf. split; [intros _|done].
    eapply Forall_impl; [done|]. intros job Hj. simpl in Hj. by destruct (p job).
Qed.

Lemma findIndex_Some p js :
  findIndex p js ≠ (-1)%Z →
  ∃ i job, findIndex p js = Z.of_nat i ∧ js !! i = Some job ∧ p job = true
           ∧ ∀ (k : nat) job', js !! k = Some job' → (k < i)%nat → p job' = false.
Proof.
  unfold findIndex. pose proof (findIndex_from_spec p js 0 ltac:(lia)) as H.
  destruct (list_find _ js) as [[i job]|] eqn:Hf; [|done].
  intros _. apply list_find_Some in Hf as (Hi & Hp & Hfirst).
  exists i, job. repeat split; [lia|done|done|].
  intros k job' Hk Hlt. specialize (Hfirst k job' Hk Hlt). by destruct (p job').
Qed.

(** ** The invariant and its preservation *)

Lemma filter_ne_notin (l : list nat) h : h ∉ l → filter (λ x, x ≠ h) l = l.
Proof.
  induction l as [|x l IH]; [done|]. intros Hn.
  apply not_elem_of_cons in Hn as [Hne Hn].
  rewrite filter_cons_True by done. f_equal. by apply IH.
Qed.

Lemma filter_ne_delete (l : list nat) i h :
  NoDup l → l !! i = Some h → filter (λ x, x ≠ h) l = delete i l.
Proof.
  revert i. induction l as [|x l IH]; intros i Hnd Hl; [done|].
  apply NoDup_cons in Hnd as [Hx Hnd]. destruct i as [|i]; simpl in Hl.
  - injection Hl as ->. rewrite filter_cons_False by (intros H; by apply H).
    simpl. by apply filter_ne_notin.
  - rewrite filter_cons_True.
    + simpl. f_equal. by apply IH.
    + intros ->. apply Hx. by eapply list_elem_of_lookup_2.
Qed.

Lemma tag_of_renderJobs w job : tag_of (renderJobs w) job = tag_of w job.
Proof. unfold tag_of. rewrite renderJobs_elems. apply renderElems_tag. Qed.

Lemma inv_renderJobs w : inv w → inv (renderJobs w).
Proof.
  intros [[Hnd Hb] [Hm Ht]]. repeat split.
  - by rewrite renderJobs_job_items.
  - rewrite renderJobs_job_items. eapply Forall_impl; [done|].
    intros h Hh. simpl. rewrite renderJobs_elems. by apply renderElems_is_Some.
  - by rewrite renderJobs_jobs, renderJobs_job_items.
  - rewrite renderJobs_jobs. eapply Forall_impl; [done|].
    intros job Hj. simpl. by rewrite tag_of_renderJobs.
Qed.

Lemma inv_updateUI w : inv w → inv (updateUI w).
Proof. intros H. unfold updateUI. by apply inv_renderJobs. Qed.

Lemma pushJob_fold l w :
  fold_left pushJob l w
  = with_elems (tagAll l (elems w)) (with_jobs (jobs w ++ (freshJob <$> l)) w).
Proof.
  revert w. induction l as [|el l IH]; intros w; simpl.
  - destruct w. unfold with_elems, with_jobs. simpl. by rewrite app_nil_r.
  - rewrite IH. destruct w. unfold pushJob, with_elems, with_jobs, tagAll. simpl.
    by rewrite <- app_assoc.
Qed.

Lemma tagAll_lookup l m h :
  tagAll l m !! h
  = (if decide (h ∈ l) then set_dataset_status "none" <$> m !! h else m !! h).
Proof.
  induction l as [|el l IH] using rev_ind.
  - simpl. destruct (decide (h ∈ [])) as [Hin|_]; [by apply elem_of_nil in Hin|done].
  - unfold tagAll in *. rewrite fold_left_app. simpl. rewrite lookup_alter.
    destruct (decide (el = h)) as [->|Hne].
    + rewrite IH. rewrite (decide_True (P := h ∈ l ++ [h]))
        by (apply elem_of_app; right; by apply list_elem_of_singleton).
      case_decide; [|done]. by destruct (m !! h).
    + rewrite IH. destruct (decide (h ∈ l)).
      * rewrite decide_True by (apply elem_of_app; by left). done.
      * rewrite decide_False; [done|].
        intros [?|Hs]%elem_of_app; [done|].
        by apply list_elem_of_singleton in Hs.
Qed.

Lemma init_eq doc :
  init doc
  = updateUI (with_elems (tagAll (job_items doc) (elems doc))
                (with_jobs (freshJob <$> job_items doc) (with_currentTab "All" doc))).
Proof. unfold init. by rewrite pushJob_fold. Qed.

Lemma inv_init doc : doc_wf doc → inv (init doc).
Proof.
  intros [Hnd Hb]. rewrite init_eq. apply inv_updateUI.
  repeat split; simpl.
  - done.
  - eapply Forall_impl; [done|]. intros h Hh. simpl.
    rewrite tagAll_lookup. case_decide; [|done]. by apply fmap_is_Some.
  - rewrite <- list_fmap_compose. by rewrite list_fmap_id.
  - apply Forall_fmap, Forall_forall. intros h Hin. simpl.
    unfold tag_of. simpl. rewrite tagAll_lookup, decide_True by done.
    rewrite Forall_forall in Hb. destruct (Hb h Hin) as [e ->]. done.
Qed.

Lemma inv_deleteJob index w w' :
  inv w → deleteJob index w = Some w' → inv w'.
Proof.
  intros [[Hnd Hb] [Hm Ht]] Hdel. unfold deleteJob in Hdel.
  destruct (jobAt (jobs w) index) as [job|] eqn:Hat; [|done].
  injection Hdel as <-. apply jobAt_Some in Hat as [H0 Hat].
  assert (job_items w !! Z.to_nat index = Some (element job)) as Hitem.
  { rewrite <- Hm, list_lookup_fmap, Hat. done. }
  apply inv_updateUI. repeat split; simpl.
  - by apply NoDup_filter.
  - rewrite Forall_forall in Hb. apply Forall_forall. intros h Hin.
    apply list_elem_of_filter in Hin as [_ Hin]. by apply Hb.
  - rewrite list_fmap_delete, Hm. symmetry. by apply filter_ne_delete.
  - by apply Forall_delete.
Qed.

Lemma inv_updateJobStatus index label w w' :
  inv w → updateJobStatus index label w = Some w' → inv w'.
Proof.
  intros [[Hnd Hb] [Hm Ht]] Hupd. unfold updateJobStatus in Hupd.
  destruct (jobAt (jobs w) index) as [job|] eqn:Hat; [|done].
  injection Hupd as <-. apply jobAt_Some in Hat as [H0 Hat].
  assert (job_items w !! Z.to_nat index = Some (element job)) as Hitem.
  { rewrite <- Hm, list_lookup_fmap, Hat. done. }
  apply inv_updateUI. repeat split; simpl.
  - done.
  - eapply Forall_impl; [done|]. intros h Hh. simpl.
    rewrite lookup_alter. case_decide; [|done]. subst h. by apply fmap_is_Some.
  - rewrite list_fmap_insert. simpl. rewrite Hm. by apply list_insert_id.
  - apply Forall_lookup_2. intros k job' Hk. unfold tag_of. simpl.
    rewrite lookup_alter.
    destruct (decide (k = Z.to_nat index)) as [->|Hne].
    + rewrite list_lookup_insert_eq in Hk by (by eapply lookup_lt_Some).
      injection Hk as <-. simpl. rewrite decide_True by done.
      rewrite Forall_forall in Hb.
      destruct (Hb (element job)) as [e ->]; [by eapply list_elem_of_lookup_2|].
      simpl. destruct e as [ds sd [[b|]|]]; reflexivity.
    + rewrite list_lookup_insert_ne in Hk by done.
      rewrite decide_False.
      * by apply (Forall_lookup_1 _ _ _ _ Ht Hk).
      * intros Heq. apply Hne. symmetry.
        apply (NoDup_lookup _ _ _ (element job) Hnd Hitem).
        rewrite <- Hm, list_lookup_fmap, Hk. simpl. by rewrite Heq.
Qed.

Lemma inv_handleTabClick e w : inv w → inv (handleTabClick e w).
Proof.
  intros H. unfold handleTabClick.
  destruct (negb _); [done|]. by apply inv_renderJobs.
Qed.

(** ** Session invariants *)

(** What a job click can do: nothing, a deletion or a status transition. *)
Lemma handleJobAction_cases e w w' :
  handleJobAction e w = Some w' →
  w' = w
  ∨ (∃ index, deleteJob index w = Some w')
  ∨ (∃ index label, updateJobStatus index label w = Some w').
Proof.
  unfold handleJobAction.
  destruct (closest_job_item e) as [jobEl|]; [|intros [= <-]; by left].
  destruct (_ =? -1)%Z; [intros [= <-]; by left|].
  destruct (_ || _); [intros H; right; left; by eexists|].
  destruct (String.eqb (tagName e) "BUTTON"); [|intros [= <-]; by left].
  destruct (_ || _); [intros H; right; right; by eexists _, _|intros [= <-]; by left].
Qed.

(** A property kept by tab clicks, status transitions and deletions is
    kept by every step, hence by every run. *)
Section SessionInvariant.

Variable P : World → Prop.
Hypothesis P_tab : ∀ e w, P w → P (handleTabClick e w).
Hypothesis P_update :
  ∀ index label w w', P w → updateJobStatus index label w = Some w' → P w'.
Hypothesis P_delete :
  ∀ index w w', P w → deleteJob index w = Some w' → P w'.

Lemma session_step w op : P w → P (step w op).
Proof using P_tab P_update P_delete.
  intros H. destruct op as [e|e|index label|index]; simpl.
  - by apply P_tab.
  - destruct (handleJobAction e w) as [w'|] eqn:Hr; simpl; [|done].
    destruct (handleJobAction_cases _ _ _ Hr)
      as [->|[[index Hd]|(index & label & Hu)]]; [done| |].
    + by eapply P_delete.
    + by eapply P_update.
  - destruct (updateJobStatus index label w) eqn:Hr; simpl; [|done].
    by eapply P_update.
  - destruct (deleteJob index w) eqn:Hr; simpl; [|done].
    by eapply P_delete.
Qed.

Lemma session_run ops w : P w → P (run w ops).
Proof using P_tab P_update P_delete.
  revert w. induction ops as [|op ops IH]; intros w H; [done|].
  simpl. apply IH. by apply session_step.
Qed.

End SessionInvariant.

Lemma inv_run ops w : inv w → inv (run w ops).
Proof.
  apply session_run.
  - apply inv_handleTabClick.
  - apply inv_updateJobStatus.
  - apply inv_deleteJob.
Qed.

(** ** Synchronization of the collection and the document *)

(** C2.  Whatever sequence of tab clicks, job clicks, status transitions
    and deletions follows initialization on a well-formed document, the
    records of [state.jobs] and the job entries attached to the container
    stay in step: the records' elements are exactly the attached entries,
    once each and in document order, and every element carries its
    record's status as tag.  A mutation therefore never changes a record
    without its element, nor an element without its record. *)
Theorem collection_mirrors_document (doc : World) (ops : list Op) :
  doc_wf doc →
  NoDup (job_items (run (init doc) ops))
  ∧ element <$> jobs (run (init doc) ops) = job_items (run (init doc) ops)
  ∧ Forall (λ job, tag_of (run (init doc) ops) job = Some (status job))
      (jobs (run (init doc) ops)).
Proof.
  intros Hdoc.
  destruct (inv_run ops (init doc) (inv_init doc Hdoc)) as [[Hnd _] [Hm Ht]].
  done.
Qed.

Lemma Scenario_page_wf : doc_wf Scenario.page.
Proof. split; [compute_done|]. by repeat constructor. Defined.

Lemma collection_mirrors_document_witness :
  doc_wf Scenario.page
  ∧ NoDup (job_items (run (init Scenario.page) Scenario.session))
  ∧ element <$> jobs (run (init Scenario.page) Scenario.session)
    = job_items (run (init Scenario.page) Scenario.session)
  ∧ Forall (λ job, tag_of (run (init Scenario.page) Scenario.session) job
                   = Some (status job))
      (jobs (run (init Scenario.page) Scenario.session)).
Proof.
  split; [exact Scenario_page_wf|].
  apply collection_mirrors_document. exact Scenario_page_wf.
Defined.

(** ** Rendering *)

Lemma isVisible_spec tab job :
  isVisible tab job = true
  ↔ (tab = "All" ∧ status job = "none") ∨ tab = status job.
Proof.
  unfold isVisible. rewrite orb_true_iff, andb_true_iff, !String.eqb_eq. done.
Qed.




Lemma filter_ext_in {A} (P Q : A → Prop) `{∀ x, Decision (P x)}
    `{∀ x, Decision (Q x)} (l : list A) :
  (∀ x, x ∈ l → P x ↔ Q x) → filter P l = filter Q l.
Proof.
  induction l as [|x l IH]; intros Hext; [done|].
  rewrite !filter_cons.
  destruct (decide (P x)) as [Hp|Hp], (decide (Q x)) as [Hq|Hq].
  - f_equal. apply IH. intros y Hy. apply Hext. by right.
  - exfalso. apply Hq, (Hext x); [by left|done].
  - exfalso. apply Hp, (Hext x); [by left|done].
  - apply IH. intros y Hy. apply Hext. by right.
Qed.




Example render_All :
  (λ h, style_display <$> elems (renderJobs (Mixed.board "All")) !! h) <$> [0; 1; 2; 3]
  = [Some "block"; Some "none"; Some "none"; Some "block"]
  ∧ countMsg (renderJobs (Mixed.board "All")) = Some "2 jobs".
Proof. by vm_compute. Qed.

Example render_Interview :
  (λ h, style_display <$> elems (renderJobs (Mixed.board "Interview")) !! h)
    <$> [0; 1; 2; 3]
  = [Some "none"; Some "block"; Some "none"; Some "none"]
  ∧ countMsg (renderJobs (Mixed.board "Interview")) = Some "1 jobs".
Proof. by vm_compute. Qed.


(** ** Status transition *)

Lemma updateJobStatus_unfold index label w job :
  jobAt (jobs w) index = Some job →
  updateJobStatus index label w
  = Some (updateUI
            (with_elems
               (alter (λ e, restyleBadge (newStatus label)
                              (set_dataset_status (newStatus label) e))
                  (element job) (elems w))
               (with_jobs
                  (<[Z.to_nat index := {| element := element job;
                                          status := newStatus label |}]> (jobs w))
                  w))).
Proof. intros H. unfold updateJobStatus. by rewrite H. Qed.

Lemma updateJobStatus_jobs index label w w' job :
  jobAt (jobs w) index = Some job → updateJobStatus index label w = Some w' →
  jobs w'
  = <[Z.to_nat index := {| element := element job; status := newStatus label |}]>
      (jobs w).
Proof.
  intros Hat. rewrite (updateJobStatus_unfold _ _ _ _ Hat).
  intros [= <-]. by rewrite updateUI_jobs.
Qed.

Lemma updateJobStatus_jobAt index label w w' job :
  jobAt (jobs w) index = Some job → updateJobStatus index label w = Some w' →
  jobAt (jobs w') index
  = Some {| element := element job; status := newStatus label |}.
Proof.
  intros Hat Hupd. rewrite (updateJobStatus_jobs _ _ _ _ _ Hat Hupd).
  apply jobAt_Some in Hat as [H0 Hat]. apply jobAt_Some. split; [done|].
  apply list_lookup_insert_eq. by eapply lookup_lt_Some.
Qed.

Lemma restyled_tag ns d e :
  dataset_status (set_style_display d (restyleBadge ns (set_dataset_status ns e)))
  = Some ns.
Proof. destruct e as [ds sd [[b|]|]]; reflexivity. Qed.


Lemma updateJobStatus_elem index label w w' job e :
  jobAt (jobs w) index = Some job → updateJobStatus index label w = Some w' →
  elems w !! element job = Some e →
  ∃ d, elems w' !! element job
       = Some (set_style_display d
                 (restyleBadge (newStatus label)
                    (set_dataset_status (newStatus label) e))).
Proof.
  intros Hat. rewrite (updateJobStatus_unfold _ _ _ _ Hat).
  intros [= <-] He. rewrite updateUI_elems, renderElems_lookup. simpl.
  rewrite lookup_alter, decide_True, He by done. simpl.
  destruct (displayOf _ _ _) as [d|]; simpl; [by exists d|].
  exists (style_display e). f_equal. unfold restyleBadge. simpl.
  by destruct (third_child e) as [[?|]|].
Qed.

Lemma countStatus_insert s js i job job' :
  js !! i = Some job →
  countStatus s (<[i := job']> js) + (if decide (status job = s) then 1 else 0)
  = countStatus s js + (if decide (status job' = s) then 1 else 0).
Proof.
  intros Hi. rewrite insert_take_drop by (by eapply lookup_lt_Some).
  rewrite <- (take_drop_middle js i job Hi) at 3.
  rewrite !countStatus_app, !countStatus_cons. lia.
Qed.

(** C3, as stated, fails on a record that is already in interview: the
    third job of the scenario was moved to interview by a click, the
    dashboard shows 1, and a further [updateJobStatus(2, "interview")]
    leaves it at 1 instead of raising it to 2. *)
Lemma interview_count_kept_when_already_interview :
  ∃ w',
    updateJobStatus 2 "interview"
      (run (init Scenario.page) [JobClick (Scenario.click_interview 12)])
    = Some w'
    ∧ jobAt (jobs (run (init Scenario.page)
                     [JobClick (Scenario.click_interview 12)])) 2
      = Some {| element := 12; status := "Interview" |}
    ∧ dashboard_Interview
        (run (init Scenario.page) [JobClick (Scenario.click_interview 12)])
      = Some "1"
    ∧ dashboard_Interview w' = Some "1"
    ∧ Interview (dashboardCounts (jobs w'))
      ≠ Interview (dashboardCounts
                     (jobs (run (init Scenario.page)
                              [JobClick (Scenario.click_interview 12)]))) + 1.
Proof. eexists. split; [by vm_compute|]. by vm_compute. Qed.

(** C3, amended.  For a valid index, [updateJobStatus(i, "interview")]
    returns, record [i] then has status ["Interview"] and so has its
    element's tag; the interview count is one more than before when the
    record was not in interview and the same when it already was; the
    rejected count is one less exactly when the record was rejected; the
    total is unchanged; and the dashboard shows the new counts. *)
Theorem updateJobStatus_interview (w : World) (i : Z) (job : Job) :
  jobAt (jobs w) i = Some job →
  is_Some (elems w !! element job) →
  ∃ w',
    updateJobStatus i "interview" w = Some w'
    ∧ jobAt (jobs w') i = Some {| element := element job; status := "Interview" |}
    ∧ tag_of w' {| element := element job; status := "Interview" |} = Some "Interview"
    ∧ Total (dashboardCounts (jobs w')) = Total (dashboardCounts (jobs w))
    ∧ Interview (dashboardCounts (jobs w'))
      = Interview (dashboardCounts (jobs w))
        + (if decide (status job = "Interview") then 0 else 1)
    ∧ Rejected (dashboardCounts (jobs w'))
        + (if decide (status job = "Rejected") then 1 else 0)
      = Rejected (dashboardCounts (jobs w))
    ∧ dashboard_Interview w'
      = write_text (Str.ofNat (Interview (dashboardCounts (jobs w'))))
          (dashboard_Interview w)
    ∧ dashboard_Rejected w'
      = write_text (Str.ofNat (Rejected (dashboardCounts (jobs w'))))
          (dashboard_Rejected w).
Proof.
  intros Hat [e He].
  pose proof (updateJobStatus_unfold i "interview" w job Hat) as Hupd.
  eexists. split; [exact Hupd|].
  pose proof (updateJobStatus_jobs _ _ _ _ _ Hat Hupd) as Hjobs.
  pose proof (updateJobStatus_jobAt _ _ _ _ _ Hat Hupd) as Hat'.
  destruct (updateJobStatus_elem _ _ _ _ _ _ Hat Hupd He) as [d Hel].
  change (newStatus "interview") with "Interview" in *.
  split; [done|]. split.
  { unfold tag_of. simpl element. rewrite Hel. exact (restyled_tag "Interview" d e). }
  rewrite Hjobs, !dashboardCounts_spec. simpl.
  apply jobAt_Some in Hat as [H0 Hat].
  pose proof (countStatus_insert "Interview" _ _ _
                {| element := element job; status := "Interview" |} Hat) as Hci.
  pose proof (countStatus_insert "Rejected" _ _ _
                {| element := element job; status := "Interview" |} Hat) as Hcr.
  simpl in Hci, Hcr.
  split; [by rewrite length_insert|].
  split; [destruct (decide (status job = "Interview")); lia|].
  split; [destruct (decide (status job = "Rejected")); lia|].
  destruct (updateUI_dashboard
              (with_elems
                 (alter (λ e0, restyleBadge "Interview"
                                 (set_dataset_status "Interview" e0))
                    (element job) (elems w))
                 (with_jobs
                    (<[Z.to_nat i := {| element := element job;
                                        status := "Interview" |}]> (jobs w)) w)))
    as (_ & Hdi & Hdr).
  split; [exact Hdi|exact Hdr].
Qed.

Lemma updateJobStatus_interview_witness :
  jobAt (jobs (init Scenario.page)) 1 = Some {| element := 11; status := "none" |}
  ∧ is_Some (elems (init Scenario.page) !! 11)
  ∧ ∃ w',
      updateJobStatus 1 "interview" (init Scenario.page) = Some w'
      ∧ jobAt (jobs w') 1 = Some {| element := 11; status := "Interview" |}
      ∧ tag_of w' {| element := 11; status := "Interview" |} = Some "Interview"
      ∧ Total (dashboardCounts (jobs w'))
        = Total (dashboardCounts (jobs (init Scenario.page)))
      ∧ Interview (dashboardCounts (jobs w'))
        = Interview (dashboardCounts (jobs (init Scenario.page))) + 1
      ∧ Rejected (dashboardCounts (jobs w')) + 0
        = Rejected (dashboardCounts (jobs (init Scenario.page)))
      ∧ dashboard_Interview w'
        = write_text (Str.ofNat (Interview (dashboardCounts (jobs w'))))
            (dashboard_Interview (init Scenario.page))
      ∧ dashboard_Rejected w'
        = write_text (Str.ofNat (Rejected (dashboardCounts (jobs w'))))
            (dashboard_Rejected (init Scenario.page)).
Proof.
  assert (jobAt (jobs (init Scenario.page)) 1
          = Some {| element := 11; status := "none" |}) as Hat
    by (vm_compute; reflexivity).
  assert (is_Some (elems (init Scenario.page) !! 11)) as Hel
    by (eexists; vm_compute; reflexivity).
  split; [exact Hat|]. split; [exact Hel|].
  exact (updateJobStatus_interview (init Scenario.page) 1
           {| element := 11; status := "none" |} Hat Hel).
Defined.

(** ** Deletion *)

(** An index outside the collection makes both mutations throw. *)
Lemma deleteJob_throws index w :
  ¬ (0 ≤ index < Z.of_nat (length (jobs w)))%Z → deleteJob index w = None.
Proof. intros H. unfold deleteJob. by rewrite (jobAt_invalid _ _ H). Qed.

Lemma updateJobStatus_throws index label w :
  ¬ (0 ≤ index < Z.of_nat (length (jobs w)))%Z →
  updateJobStatus index label w = None.
Proof. intros H. unfold updateJobStatus. by rewrite (jobAt_invalid _ _ H). Qed.

Lemma deleteJob_unfold index w job :
  jobAt (jobs w) index = Some job →
  deleteJob index w
  = Some (updateUI
            (with_jobs (delete (Z.to_nat index) (jobs w))
               (with_job_items (filter (λ h, h ≠ element job) (job_items w)) w))).
Proof. intros H. unfold deleteJob. by rewrite H. Qed.

(** C4.  For a valid index, [deleteJob(i)] returns and removes exactly
    record [i]: the collection is one shorter, the records before [i] keep
    their place, those after [i] move down by one in the same order, each
    with its element and status; the deleted record's element is no longer
    attached, every other attached element still is, and no element's tag
    or badge is touched. *)
Theorem deleteJob_removes_one (w : World) (i : Z) (job : Job) :
  jobAt (jobs w) i = Some job →
  ∃ w',
    deleteJob i w = Some w'
    ∧ length (jobs w') + 1 = length (jobs w)
    ∧ (∀ k : nat, (k < Z.to_nat i)%nat → jobs w' !! k = jobs w !! k)
    ∧ (∀ k : nat, (Z.to_nat i ≤ k)%nat → jobs w' !! k = jobs w !! S k)
    ∧ (element job ∉ job_items w')
    ∧ job_items w' = filter (λ h, h ≠ element job) (job_items w)
    ∧ (∀ h, h ≠ element job → (h ∈ job_items w' ↔ h ∈ job_items w))
    ∧ (∀ h, elems w' !! h ≫= dataset_status = elems w !! h ≫= dataset_status)
    ∧ (∀ h, third_child <$> elems w' !! h = third_child <$> elems w !! h).
Proof.
  intros Hat. eexists. split; [by apply deleteJob_unfold|].
  apply jobAt_Some in Hat as [H0 Hat].
  rewrite updateUI_jobs, updateUI_job_items, updateUI_elems. simpl.
  repeat split.
  - rewrite length_delete by done. apply lookup_lt_Some in Hat. lia.
  - intros k Hk. by apply list_lookup_delete_lt.
  - intros k Hk. by apply list_lookup_delete_ge.
  - intros Hin. by apply list_elem_of_filter in Hin as [Hne _].
  - intros Hin. by apply list_elem_of_filter in Hin as [_ ?].
  - intros Hin. by apply list_elem_of_filter.
  - intros h. apply renderElems_tag.
  - intros h. apply renderElems_third_child.
Qed.

Lemma deleteJob_removes_one_witness :
  jobAt (jobs (init Scenario.page)) 1 = Some {| element := 11; status := "none" |}
  ∧ ∃ w',
      deleteJob 1 (init Scenario.page) = Some w'
      ∧ length (jobs w') + 1 = length (jobs (init Scenario.page))
      ∧ (∀ k : nat, (k < Z.to_nat 1)%nat
                    → jobs w' !! k = jobs (init Scenario.page) !! k)
      ∧ (∀ k : nat, (Z.to_nat 1 ≤ k)%nat
                    → jobs w' !! k = jobs (init Scenario.page) !! S k)
      ∧ (11 ∉ job_items w')
      ∧ job_items w' = filter (λ h, h ≠ 11) (job_items (init Scenario.page))
      ∧ (∀ h, h ≠ 11 → (h ∈ job_items w' ↔ h ∈ job_items (init Scenario.page)))
      ∧ (∀ h, elems w' !! h ≫= dataset_status
              = elems (init Scenario.page) !! h ≫= dataset_status)
      ∧ (∀ h, third_child <$> elems w' !! h
              = third_child <$> elems (init Scenario.page) !! h).
Proof.
  assert (jobAt (jobs (init Scenario.page)) 1
          = Some {| element := 11; status := "none" |}) as Hat
    by (vm_compute; reflexivity).
  split; [exact Hat|].
  exact (deleteJob_removes_one (init Scenario.page) 1
           {| element := 11; status := "none" |} Hat).
Defined.

(** Deleting index [i] and then acting on index [i] reaches the record
    that was at [i + 1]. *)
Example delete_then_update_reaches_next :
  jobs (run (init Scenario.page)
          [CallDeleteJob 0; CallUpdateJobStatus 0 "interview"])
  = [ {| element := 11; status := "Interview" |};
      {| element := 12; status := "none" |} ].
Proof. by vm_compute. Qed.

(** ** Action dispatch *)

Lemma no_record_findIndex jobEl js :
  jobEl ∉ element <$> js →
  findIndex (λ job, Nat.eqb (element job) jobEl) js = (-1)%Z.
Proof.
  intros Hn. apply findIndex_None, Forall_forall. intros job Hin.
  apply Nat.eqb_neq. intros Heq. apply Hn. rewrite <- Heq.
  by apply list_elem_of_fmap_2.
Qed.

Lemma record_findIndex jobEl js :
  jobEl ∈ element <$> js →
  ∃ i job,
    findIndex (λ job, Nat.eqb (element job) jobEl) js = Z.of_nat i
    ∧ js !! i = Some job ∧ element job = jobEl
    ∧ ∀ (k : nat) job', js !! k = Some job' → (k < i)%nat → element job' ≠ jobEl.
Proof.
  intros Hin.
  destruct (findIndex_Some (λ job, Nat.eqb (element job) jobEl) js)
    as (i & job & Hi & Hl & Hp & Hfirst).
  - intros Hnone. apply findIndex_None in Hnone.
    apply list_elem_of_fmap in Hin as (job & -> & Hin).
    rewrite Forall_forall in Hnone. specialize (Hnone job Hin). simpl in Hnone.
    by rewrite Nat.eqb_refl in Hnone.
  - exists i, job. repeat split; [done|done|by apply Nat.eqb_eq|].
    intros k job' Hk Hlt. apply Nat.eqb_neq. by eapply Hfirst.
Qed.

Lemma jobAt_of_nat js i : jobAt js (Z.of_nat i) = js !! i.
Proof.
  unfold jobAt. destruct (Z.ltb_spec (Z.of_nat i) 0); [lia|].
  by rewrite Nat2Z.id.
Qed.

(** [handleJobAction] never throws: the index it passes on was just found. *)
Lemma handleJobAction_total e w : is_Some (handleJobAction e w).
Proof.
  unfold handleJobAction.
  destruct (closest_job_item e) as [jobEl|]; [|by eexists].
  destruct (Z.eqb_spec
              (findIndex (λ j, Nat.eqb (element j) jobEl) (jobs w)) (-1))
    as [_|Hne]; [by eexists|].
  destruct (findIndex_Some _ _ Hne) as (i & job & -> & Hl & _).
  assert (jobAt (jobs w) (Z.of_nat i) = Some job) as Hat
    by (by rewrite jobAt_of_nat).
  destruct (_ || _); [rewrite (deleteJob_unfold _ _ _ Hat); by eexists|].
  destruct (String.eqb (tagName e) "BUTTON"); [|by eexists].
  destruct (_ || _); [|by eexists].
  rewrite (updateJobStatus_unfold _ _ _ _ Hat). by eexists.
Qed.

(** C5.  [handleJobAction] never throws.  A click outside every job
    entry, or inside an entry that has no record in the collection,
    changes nothing.  Otherwise the record is the first one whose element
    is the enclosing entry, looked up in the collection as it is at
    dispatch time; a click in a delete affordance deletes that record and
    makes no status transition, whatever the target's tag and label; any
    other click makes a status transition when the target is a button
    whose trimmed, lower-cased label is ["interview"] or ["rejected"], and
    changes nothing when it is not. *)
Theorem handleJobAction_dispatch (e : JobEvent) (w : World) :
  is_Some (handleJobAction e w)
  ∧ (closest_job_item e = None → handleJobAction e w = Some w)
  ∧ (∀ jobEl,
       closest_job_item e = Some jobEl → jobEl ∉ element <$> jobs w →
       handleJobAction e w = Some w)
  ∧ (∀ jobEl,
       closest_job_item e = Some jobEl → jobEl ∈ element <$> jobs w →
       ∃ i job,
         jobs w !! i = Some job ∧ element job = jobEl
         ∧ (∀ (k : nat) job',
              jobs w !! k = Some job' → (k < i)%nat → element job' ≠ jobEl)
         ∧ (in_delete_region e →
            handleJobAction e w = deleteJob (Z.of_nat i) w
            ∧ ∃ w', deleteJob (Z.of_nat i) w = Some w'
                    ∧ jobs w' = delete i (jobs w))
         ∧ (¬ in_delete_region e →
            ∀ label, is_status_control e label →
              handleJobAction e w = updateJobStatus (Z.of_nat i) label w
              ∧ is_Some (updateJobStatus (Z.of_nat i) label w))
         ∧ (¬ in_delete_region e →
            (∀ label, ¬ is_status_control e label) →
            handleJobAction e w = Some w)).
Proof.
  assert (closest_job_item e = None → handleJobAction e w = Some w) as Hnone.
  { intros H. unfold handleJobAction. by rewrite H. }
  assert (∀ jobEl, closest_job_item e = Some jobEl → jobEl ∉ element <$> jobs w →
                   handleJobAction e w = Some w) as Hnorec.
  { intros jobEl H Hn. unfold handleJobAction.
    by rewrite H, (no_record_findIndex _ _ Hn). }
  assert (∀ jobEl,
       closest_job_item e = Some jobEl → jobEl ∈ element <$> jobs w →
       ∃ i job,
         jobs w !! i = Some job ∧ element job = jobEl
         ∧ (∀ (k : nat) job',
              jobs w !! k = Some job' → (k < i)%nat → element job' ≠ jobEl)
         ∧ (in_delete_region e →
            handleJobAction e w = deleteJob (Z.of_nat i) w
            ∧ ∃ w', deleteJob (Z.of_nat i) w = Some w'
                    ∧ jobs w' = delete i (jobs w))
         ∧ (¬ in_delete_region e →
            ∀ label, is_status_control e label →
              handleJobAction e w = updateJobStatus (Z.of_nat i) label w
              ∧ is_Some (updateJobStatus (Z.of_nat i) label w))
         ∧ (¬ in_delete_region e →
            (∀ label, ¬ is_status_control e label) →
            handleJobAction e w = Some w)) as Hrec.
  { intros jobEl H Hin.
    destruct (record_findIndex _ _ Hin) as (i & job & Hi & Hl & He & Hfirst).
    exists i, job. split; [done|]. split; [done|]. split; [done|].
    assert (jobAt (jobs w) (Z.of_nat i) = Some job) as Hat
      by (by rewrite jobAt_of_nat).
    unfold handleJobAction. rewrite H, Hi.
    destruct (Z.eqb_spec (Z.of_nat i) (-1)) as [?|_]; [lia|].
    unfold in_delete_region, is_status_control.
    destruct (closest_fa_trash e), (closest_border_rounded_full e); simpl.
    1-3: (split; [|split]; [| intros Hnd; exfalso; apply Hnd; auto ..];
          intros _; split; [done|];
          eexists; split; [by apply deleteJob_unfold|];
          by rewrite updateUI_jobs, Nat2Z.id).
    split; [intros [?|?]; done|].
    destruct (String.eqb_spec (tagName e) "BUTTON") as [Hb|Hb].
    - destruct (String.eqb_spec (Str.toLowerCase (Str.trim (textContent e)))
                  "interview") as [Hli|Hli]; simpl.
      + split.
        * intros _ label (_ & -> & _). split; [done|].
          rewrite (updateJobStatus_unfold _ _ _ _ Hat). by eexists.
        * intros _ Hno. exfalso. apply (Hno "interview"). auto.
      + destruct (String.eqb_spec (Str.toLowerCase (Str.trim (textContent e)))
                    "rejected") as [Hlr|Hlr]; simpl.
        * split.
          -- intros _ label (_ & -> & _). split; [done|].
             rewrite (updateJobStatus_unfold _ _ _ _ Hat). by eexists.
          -- intros _ Hno. exfalso. apply (Hno "rejected"). auto.
        * split; [|done].
          intros _ label (_ & -> & [?|?]); done.
    - split; [|done]. intros _ label (? & _); done. }
  split; [apply handleJobAction_total|done].
Qed.

Lemma handleJobAction_dispatch_witness :
  in_delete_region trash_labelled_interview
  ∧ is_status_control trash_labelled_interview "interview"
  ∧ handleJobAction trash_labelled_interview (init Scenario.page)
    = deleteJob 1 (init Scenario.page).
Proof.
  split; [by left|]. split; [by repeat split; try left|].
  destruct (handleJobAction_dispatch trash_labelled_interview (init Scenario.page))
    as (_ & _ & _ & H).
  destruct (H 11 eq_refl) as (i & job & Hl & He & _ & Hd & _).
  { vm_compute. apply list_elem_of_In. simpl. auto. }
  destruct (Hd (or_introl eq_refl)) as [Heq _].
  assert (i = 1%nat) as ->; [|exact Heq].
  destruct i as [|[|[|i]]]; vm_compute in Hl; try discriminate;
    injection Hl as <-; vm_compute in He; congruence.
Defined.

(** ** Idempotence of the status transition *)

Lemma restyle_paint_restyle ns d e :
  restyleBadge ns (set_dataset_status ns
    (paint d (restyleBadge ns (set_dataset_status ns e))))
  = paint d (restyleBadge ns (set_dataset_status ns e)).
Proof. destruct e as [ds sd [[b|]|]], d; reflexivity. Qed.

(** C6.  For a valid index and any label, a second
    [updateJobStatus(i, label)] right after the first returns the very
    world the first one produced: records, element tags, badges,
    displays, visible count, empty-state block and dashboard are all the
    same. *)
Theorem updateJobStatus_idempotent (w : World) (i : Z) (label : string) :
  (0 ≤ i < Z.of_nat (length (jobs w)))%Z →
  ∃ w1,
    updateJobStatus i label w = Some w1
    ∧ updateJobStatus i label w1 = Some w1.
Proof.
  intros Hi. destruct (jobAt_valid _ _ Hi) as [job Hat].
  pose proof (updateJobStatus_unfold i label w job Hat) as Hupd.
  eexists. split; [exact Hupd|].
  pose proof (updateJobStatus_jobAt _ _ _ _ _ Hat Hupd) as Hat1.
  rewrite (updateJobStatus_unfold _ _ _ _ Hat1). f_equal. simpl element.
  match goal with |- updateUI ?a = updateUI ?b =>
    transitivity (updateUI (updateUI b)); [|apply updateUI_idem] end.
  f_equal. apply World_eq; try reflexivity.
  - cbn [jobs with_elems with_jobs]. apply list_insert_id.
    apply jobAt_Some in Hat1 as [_ Hat1]. exact Hat1.
  - cbn [elems with_elems with_jobs]. rewrite updateUI_elems.
    apply map_eq. intros h. rewrite lookup_alter, !renderElems_lookup.
    cbn [elems with_elems with_jobs]. rewrite !lookup_alter.
    destruct (decide (element job = h)) as [->|Hne]; [|reflexivity].
    rewrite decide_True by done.
    destruct (elems w !! h) as [e|]; [|reflexivity]. simpl.
    f_equal. apply restyle_paint_restyle.
Qed.

Lemma updateJobStatus_idempotent_witness :
  (0 ≤ 2 < Z.of_nat (length (jobs (init Scenario.page))))%Z
  ∧ ∃ w1,
      updateJobStatus 2 "rejected" (init Scenario.page) = Some w1
      ∧ updateJobStatus 2 "rejected" w1 = Some w1.
Proof.
  assert (0 ≤ 2 < Z.of_nat (length (jobs (init Scenario.page))))%Z as Hi
    by (vm_compute; split; [discriminate|reflexivity]).
  split; [exact Hi|].
  exact (updateJobStatus_idempotent (init Scenario.page) 2 "rejected" Hi).
Defined.

(** ** Missing badge *)



(** ** Dashboard recomputation *)

Lemma write_text_shows n el : display_shows el (write_text (Str.ofNat n) el) n.
Proof. split; [by intros ->|by intros [? ->]]. Qed.

Lemma updateUI_recomputed w : dashboard_recomputed w (updateUI w).
Proof.
  destruct (updateUI_dashboard w) as (Ht & Hi & Hr).
  unfold dashboard_recomputed. rewrite Ht, Hi, Hr, updateUI_jobs.
  repeat split; apply write_text_shows.
Qed.

(** C8.  After a status transition or a deletion at a valid index,
    whether called directly or reached through a click, the collection is
    the old one with that record's status replaced (["Interview"] for the
    label ["interview"], ["Rejected"] otherwise), or with that record
    removed, and each dashboard display that exists shows the count found
    over the whole collection as it then is (its size, the number of
    records in interview, the number rejected); a missing display is
    skipped; none of these calls throws. *)
Theorem dashboard_after_mutation (w : World) (i : Z) (job : Job) :
  jobAt (jobs w) i = Some job →
  (∀ label, ∃ w' s,
      updateJobStatus i label w = Some w'
      ∧ ((label = "interview" ∧ s = "Interview")
         ∨ (label ≠ "interview" ∧ s = "Rejected"))
      ∧ jobs w' = <[Z.to_nat i := {| element := element job; status := s |}]> (jobs w)
      ∧ dashboard_recomputed w w')
  ∧ (∃ w', deleteJob i w = Some w'
           ∧ jobs w' = delete (Z.to_nat i) (jobs w)
           ∧ dashboard_recomputed w w')
  ∧ (∀ e, ∃ w',
       handleJobAction e w = Some w'
       ∧ (w' = w
          ∨ (dashboard_recomputed w w'
             ∧ ((∃ k job', jobs w !! k = Some job' ∧ jobs w' = delete k (jobs w))
                ∨ (∃ k job' s,
                     jobs w !! k = Some job'
                     ∧ (s = "Interview" ∨ s = "Rejected")
                     ∧ jobs w'
                       = <[k := {| element := element job'; status := s |}]>
                           (jobs w)))))).
Proof.
  intros Hat. split; [|split].
  - intros label. eexists _, (newStatus label).
    split; [by apply updateJobStatus_unfold|]. split.
    { unfold newStatus. destruct (String.eqb_spec label "interview"); auto. }
    split; [by rewrite updateUI_jobs|].
    apply (updateUI_recomputed (with_elems _ (with_jobs _ w))).
  - eexists. split; [by apply deleteJob_unfold|].
    split; [by rewrite updateUI_jobs|].
    apply (updateUI_recomputed (with_jobs _ (with_job_items _ w))).
  - intros e. destruct (handleJobAction_total e w) as [w' Hw'].
    exists w'. split; [done|].
    destruct (handleJobAction_cases _ _ _ Hw')
      as [->|[[k Hd]|(k & l & Hu)]]; [by left| |]; right.
    + unfold deleteJob in Hd. destruct (jobAt (jobs w) k) as [job'|] eqn:Hk; [|done].
      injection Hd as <-. apply jobAt_Some in Hk as [_ Hk]. split.
      * apply (updateUI_recomputed (with_jobs _ (with_job_items _ w))).
      * left. exists (Z.to_nat k), job'. split; [done|]. by rewrite updateUI_jobs.
    + unfold updateJobStatus in Hu.
      destruct (jobAt (jobs w) k) as [job'|] eqn:Hk; [|done].
      injection Hu as <-. apply jobAt_Some in Hk as [_ Hk]. split.
      * apply (updateUI_recomputed (with_elems _ (with_jobs _ w))).
      * right. exists (Z.to_nat k), job', (newStatus l). split; [done|]. split.
        { unfold newStatus. destruct (String.eqb l "interview"); auto. }
        by rewrite updateUI_jobs.
Qed.

Lemma dashboard_after_mutation_witness :
  jobAt (jobs bare_board) 0 = Some {| element := 5; status := "none" |}
  ∧ (∀ label, ∃ w' s,
        updateJobStatus 0 label bare_board = Some w'
        ∧ ((label = "interview" ∧ s = "Interview")
           ∨ (label ≠ "interview" ∧ s = "Rejected"))
        ∧ jobs w'
          = <[Z.to_nat 0 := {| element := 5; status := s |}]> (jobs bare_board)
        ∧ dashboard_recomputed bare_board w')
  ∧ (∃ w', deleteJob 0 bare_board = Some w'
           ∧ jobs w' = delete (Z.to_nat 0) (jobs bare_board)
           ∧ dashboard_recomputed bare_board w')
  ∧ (∀ e, ∃ w',
       handleJobAction e bare_board = Some w'
       ∧ (w' = bare_board
          ∨ (dashboard_recomputed bare_board w'
             ∧ ((∃ k job', jobs bare_board !! k = Some job'
                           ∧ jobs w' = delete k (jobs bare_board))
                ∨ (∃ k job' s,
                     jobs bare_board !! k = Some job'
                     ∧ (s = "Interview" ∨ s = "Rejected")
                     ∧ jobs w'
                       = <[k := {| element := element job'; status := s |}]>
                           (jobs bare_board)))))).
Proof.
  assert (jobAt (jobs bare_board) 0 = Some {| element := 5; status := "none" |})
    as Hat by reflexivity.
  split; [exact Hat|].
  exact (dashboard_after_mutation bare_board 0
           {| element := 5; status := "none" |} Hat).
Defined.

(** Over a whole session the dashboard never drifts from the collection:
    tab clicks touch neither, and every mutation recomputes. *)
Lemma dashboard_recomputed_trans w0 w w' :
  dashboard_recomputed w0 w → dashboard_recomputed w w' →
  dashboard_recomputed w0 w'.
Proof.
  assert (∀ a b c n m, display_shows a b n → display_shows b c m →
                       display_shows a c m) as Htrans.
  { intros a b c n m [Hn Hs] [Hn' Hs']. split.
    - intros Ha. by apply Hn', Hn.
    - intros Ha. apply Hs'. rewrite (Hs Ha). by eexists. }
  intros (Ht & Hi & Hr) (Ht' & Hi' & Hr'). repeat split; by eapply Htrans.
Qed.

Lemma dashboard_tracks_collection doc ops :
  dashboard_recomputed doc (run (init doc) ops).
Proof.
  apply (session_run (dashboard_recomputed doc)).
  - intros e w H. unfold handleTabClick. destruct (negb _); [done|].
    destruct (renderJobs_dashboard
                (with_currentTab (Str.trim (tab_textContent e))
                   (with_tabButtons
                      match tab_button e with
                      | Some i => alter emphasize i (deemphasize <$> tabButtons w)
                      | None => deemphasize <$> tabButtons w
                      end w))) as (Ht & Hi & Hr).
    unfold dashboard_recomputed. rewrite Ht, Hi, Hr, renderJobs_jobs. exact H.
  - intros index label w w' H Hu. apply (dashboard_recomputed_trans _ w); [done|].
    unfold updateJobStatus in Hu. destruct (jobAt (jobs w) index); [|done].
    injection Hu as <-.
    apply (updateUI_recomputed (with_elems _ (with_jobs _ w))).
  - intros index w w' H Hd. apply (dashboard_recomputed_trans _ w); [done|].
    unfold deleteJob in Hd. destruct (jobAt (jobs w) index); [|done].
    injection Hd as <-.
    apply (updateUI_recomputed (with_jobs _ (with_job_items _ w))).
  - rewrite init_eq.
    apply (updateUI_recomputed
             (with_elems _ (with_jobs _ (with_currentTab "All" doc)))).
Qed.

Example dashboard_with_missing_displays :
  ∃ w', updateJobStatus 0 "interview" bare_board = Some w'
        ∧ dashboard_Total w' = None
        ∧ dashboard_Interview w' = Some "1"
        ∧ dashboard_Rejected w' = None.
Proof. eexists. split; [by vm_compute|]. by vm_compute. Qed.

(** ** Tab selection *)

Lemma classList_remove_elem tokens cl c :
  c ∈ classList_remove tokens cl ↔ c ∈ cl ∧ c ∉ tokens.
Proof. unfold classList_remove. rewrite list_elem_of_filter. tauto. Qed.

Lemma classList_add_elem tokens cl c :
  c ∈ classList_add tokens cl ↔ c ∈ cl ∨ c ∈ tokens.
Proof.
  unfold classList_add. revert cl.
  induction tokens as [|t tokens IH]; intros cl; simpl.
  - rewrite elem_of_nil. tauto.
  - rewrite IH, elem_of_cons. destruct (decide (t ∈ cl)) as [Hin|Hn].
    + split; [tauto|]. intros [?|[->|?]]; tauto.
    + rewrite elem_of_app, list_elem_of_singleton. tauto.
Qed.

Lemma emphasize_spec cl :
  "bg-[#3B82F6]" ∈ emphasize cl ∧ "text-white" ∈ emphasize cl
  ∧ ("btn-soft" ∉ emphasize cl).
Proof.
  unfold emphasize. rewrite !classList_add_elem, !classList_remove_elem.
  repeat split.
  - right. by left.
  - right. right. by left.
  - intros [[_ Hn]|Hin].
    + apply Hn. by left.
    + apply elem_of_cons in Hin as [?|Hin]; [done|].
      apply list_elem_of_singleton in Hin. done.
Qed.

Lemma deemphasize_spec cl :
  "btn-soft" ∈ deemphasize cl ∧ ("bg-[#3B82F6]" ∉ deemphasize cl)
  ∧ ("text-white" ∉ deemphasize cl).
Proof.
  unfold deemphasize. rewrite !classList_add_elem, !classList_remove_elem.
  repeat split.
  - right. by left.
  - intros [[_ Hn]|Hin].
    + apply Hn. by left.
    + by apply list_elem_of_singleton in Hin.
  - intros [[_ Hn]|Hin].
    + apply Hn. right. by left.
    + by apply list_elem_of_singleton in Hin.
Qed.

Lemma handleTabClick_unfold e w :
  tab_tagName e = "BUTTON" →
  handleTabClick e w
  = renderJobs
      (with_currentTab (Str.trim (tab_textContent e))
         (with_tabButtons
            (match tab_button e with
             | Some i => alter emphasize i (deemphasize <$> tabButtons w)
             | None => deemphasize <$> tabButtons w
             end) w)).
Proof. intros H. unfold handleTabClick. by rewrite H. Qed.

Lemma handleTabClick_ignored e w :
  tab_tagName e ≠ "BUTTON" → handleTabClick e w = w.
Proof.
  intros H. unfold handleTabClick.
  destruct (String.eqb_spec (tab_tagName e) "BUTTON"); done.
Qed.

(** C9, as stated, fails on a tab bar that holds a button with another
    label: a click on a button labelled " Saved " makes the selection
    ["Saved"], which is none of the three. *)
Lemma tab_label_outside_the_three :
  currentTab
    (handleTabClick
       {| tab_tagName := "BUTTON"; tab_textContent := " Saved ";
          tab_button := Some 1 |}
       (init Scenario.page))
  = "Saved"
  ∧ "Saved" ≠ "All" ∧ "Saved" ≠ "Interview" ∧ "Saved" ≠ "Rejected".
Proof. split; [by vm_compute|]. by repeat split. Qed.

(** C9, amended.  A click on a button of the tab bar sets the selection
    to the button's trimmed label, whatever that label is (one of
    ["All"], ["Interview"], ["Rejected"] when the button is labelled so),
    and re-renders the job list under it.  The collection with every
    record's status, the attached entries, the three dashboard displays
    and every element's tag and badge are unchanged; of the cached tab
    buttons the clicked one ends highlighted and every other one
    de-emphasized. *)
Theorem handleTabClick_frame (e : TabEvent) (w : World) :
  tab_tagName e = "BUTTON" →
  currentTab (handleTabClick e w) = Str.trim (tab_textContent e)
  ∧ (valid_tab (Str.trim (tab_textContent e)) → valid_tab (currentTab (handleTabClick e w)))
  ∧ handleTabClick e w
    = renderJobs
        (with_currentTab (Str.trim (tab_textContent e))
           (with_tabButtons (tabButtons (handleTabClick e w)) w))
  ∧ jobs (handleTabClick e w) = jobs w
  ∧ job_items (handleTabClick e w) = job_items w
  ∧ dashboard_Total (handleTabClick e w) = dashboard_Total w
  ∧ dashboard_Interview (handleTabClick e w) = dashboard_Interview w
  ∧ dashboard_Rejected (handleTabClick e w) = dashboard_Rejected w
  ∧ (∀ h, elems (handleTabClick e w) !! h ≫= dataset_status
          = elems w !! h ≫= dataset_status)
  ∧ (∀ h, third_child <$> elems (handleTabClick e w) !! h
          = third_child <$> elems w !! h)
  ∧ length (tabButtons (handleTabClick e w)) = length (tabButtons w)
  ∧ (∀ (j : nat) cl, tabButtons (handleTabClick e w) !! j = Some cl →
       if decide (tab_button e = Some j)
       then "bg-[#3B82F6]" ∈ cl ∧ "text-white" ∈ cl ∧ ("btn-soft" ∉ cl)
       else "btn-soft" ∈ cl ∧ ("bg-[#3B82F6]" ∉ cl) ∧ ("text-white" ∉ cl)).
Proof.
  intros Hb. rewrite (handleTabClick_unfold e w Hb).
  set (btns := match tab_button e with
               | Some i => alter emphasize i (deemphasize <$> tabButtons w)
               | None => deemphasize <$> tabButtons w
               end).
  set (w1 := with_currentTab _ (with_tabButtons btns w)).
  destruct (renderJobs_dashboard w1) as (Ht & Hi & Hr).
  assert (currentTab (renderJobs w1) = Str.trim (tab_textContent e)) as Htab
    by (by rewrite renderJobs_currentTab).
  split; [exact Htab|]. split; [by rewrite Htab|].
  split; [by rewrite renderJobs_tabButtons|].
  split; [by rewrite renderJobs_jobs|].
  split; [by rewrite renderJobs_job_items|].
  split; [exact Ht|]. split; [exact Hi|]. split; [exact Hr|].
  split; [intros h; rewrite renderJobs_elems; apply renderElems_tag|].
  split; [intros h; rewrite renderJobs_elems; apply renderElems_third_child|].
  rewrite renderJobs_tabButtons. change (tabButtons w1) with btns. split.
  - unfold btns. destruct (tab_button e); by rewrite ?length_alter, length_fmap.
  - intros j cl Hj. unfold btns in Hj. destruct (tab_button e) as [i|].
    + rewrite list_lookup_alter, !list_lookup_fmap in Hj.
      destruct (decide (i = j)) as [->|Hne].
      * rewrite decide_True by done.
        destruct (tabButtons w !! j) as [cl0|]; [|done].
        injection Hj as <-. apply emphasize_spec.
      * rewrite decide_False by congruence.
        destruct (tabButtons w !! j) as [cl0|]; [|done].
        injection Hj as <-. apply deemphasize_spec.
    + rewrite decide_False by done. rewrite list_lookup_fmap in Hj.
      destruct (tabButtons w !! j) as [cl0|]; [|done].
      injection Hj as <-. apply deemphasize_spec.
Qed.

Lemma handleTabClick_frame_witness :
  tab_tagName (Scenario.click_tab 2 " Rejected") = "BUTTON"
  ∧ currentTab (handleTabClick (Scenario.click_tab 2 " Rejected") (init Scenario.page))
    = "Rejected"
  ∧ jobs (handleTabClick (Scenario.click_tab 2 " Rejected") (init Scenario.page))
    = jobs (init Scenario.page)
  ∧ dashboard_Interview
      (handleTabClick (Scenario.click_tab 2 " Rejected") (init Scenario.page))
    = dashboard_Interview (init Scenario.page).
Proof.
  pose proof (handleTabClick_frame (Scenario.click_tab 2 " Rejected")
                (init Scenario.page) eq_refl)
    as (Htab & _ & _ & Hjobs & _ & _ & Hi & _).
  split; [reflexivity|]. split; [exact Htab|]. split; [exact Hjobs|exact Hi].
Defined.

(** ** Statuses *)

Lemma newStatus_spec label :
  (newStatus label = "Interview" ↔ label = "interview")
  ∧ (label ≠ "interview" → newStatus label = "Rejected")
  ∧ newStatus label ≠ "none"
  ∧ valid_status (newStatus label).
Proof.
  unfold newStatus, valid_status.
  destruct (String.eqb_spec label "interview") as [->|Hne].
  - repeat split; auto. done.
  - repeat split; auto; done.
Qed.

Lemma valid_jobs_init doc : valid_jobs (init doc).
Proof.
  unfold valid_jobs. rewrite init_eq, updateUI_jobs. simpl.
  apply Forall_fmap, Forall_forall. intros h _. by left.
Qed.

Lemma valid_jobs_updateJobStatus index label w w' :
  valid_jobs w → updateJobStatus index label w = Some w' → valid_jobs w'.
Proof.
  unfold valid_jobs, updateJobStatus. intros Hv.
  destruct (jobAt (jobs w) index) as [job|]; [|done]. intros [= <-].
  rewrite updateUI_jobs. simpl. apply Forall_insert; [done|].
  apply newStatus_spec.
Qed.

Lemma valid_jobs_deleteJob index w w' :
  valid_jobs w → deleteJob index w = Some w' → valid_jobs w'.
Proof.
  unfold valid_jobs, deleteJob. intros Hv.
  destruct (jobAt (jobs w) index) as [job|]; [|done]. intros [= <-].
  rewrite updateUI_jobs. simpl. by apply Forall_delete.
Qed.

Lemma valid_jobs_handleTabClick e w :
  valid_jobs w → valid_jobs (handleTabClick e w).
Proof.
  unfold valid_jobs, handleTabClick. destruct (negb _); [done|].
  by rewrite renderJobs_jobs.
Qed.

Lemma valid_jobs_run ops w : valid_jobs w → valid_jobs (run w ops).
Proof.
  apply session_run.
  - apply valid_jobs_handleTabClick.
  - intros index label w0 w'. apply valid_jobs_updateJobStatus.
  - intros index w0 w'. apply valid_jobs_deleteJob.
Qed.

(** C10.  For a valid index and any label string, [updateJobStatus]
    returns and leaves record [i] with status ["Interview"] exactly when
    the label is the string ["interview"], and with ["Rejected"] for every
    other label; the status is never ["none"] after the call.  In every
    world a session reaches from initialization, each record's status is
    one of ["none"], ["Interview"], ["Rejected"]. *)
Theorem updateJobStatus_status :
  (∀ (w : World) (i : Z) (label : string) (job : Job),
     jobAt (jobs w) i = Some job →
     ∃ w' job',
       updateJobStatus i label w = Some w'
       ∧ jobAt (jobs w') i = Some job'
       ∧ element job' = element job
       ∧ (status job' = "Interview" ↔ label = "interview")
       ∧ (label ≠ "interview" → status job' = "Rejected")
       ∧ status job' ≠ "none")
  ∧ (∀ (doc : World) (ops : list Op),
       Forall (λ job, valid_status (status job)) (jobs (run (init doc) ops))).
Proof.
  split.
  - intros w i label job Hat.
    pose proof (updateJobStatus_unfold i label w job Hat) as Hupd.
    eexists _, _. split; [exact Hupd|].
    split; [by eapply updateJobStatus_jobAt|]. simpl.
    destruct (newStatus_spec label) as (H1 & H2 & H3 & _). done.
  - intros doc ops. apply valid_jobs_run, valid_jobs_init.
Qed.

Lemma updateJobStatus_status_witness :
  ∃ w' job',
    updateJobStatus 1 "Interview" (init Scenario.page) = Some w'
    ∧ jobAt (jobs w') 1 = Some job'
    ∧ element job' = 11
    ∧ (status job' = "Interview" ↔ "Interview" = "interview")
    ∧ ("Interview" ≠ "interview" → status job' = "Rejected")
    ∧ status job' ≠ "none".
Proof.
  assert (jobAt (jobs (init Scenario.page)) 1
          = Some {| element := 11; status := "none" |}) as Hat
    by (vm_compute; reflexivity).
  exact (proj1 updateJobStatus_status (init Scenario.page) 1%Z "Interview"
           {| element := 11; status := "none" |} Hat).
Defined.

(** A label in another case is not ["interview"]: the record is rejected. *)
Example capitalised_label_rejects :
  jobs <$> updateJobStatus 1 "Interview" (init Scenario.page)
  = Some [ {| element := 10; status := "none" |};
           {| element := 11; status := "Rejected" |};
           {| element := 12; status := "none" |} ].
Proof. by vm_compute. Qed.

(** ** Worked examples of the specification *)

Example trim_label : Str.trim "  Interview
 " = "Interview".
Proof. reflexivity. Qed.

Example lower_label : Str.toLowerCase "ReJECTED" = "rejected".
Proof. reflexivity. Qed.

(** Three untouched jobs; "Interview" is clicked on the third. *)
Example scenario_dashboard :
  dashboard_Total (run (init Scenario.page) [JobClick (Scenario.click_interview 12)])
  = Some "3"
  ∧ dashboard_Interview
      (run (init Scenario.page) [JobClick (Scenario.click_interview 12)])
    = Some "1"
  ∧ dashboard_Rejected
      (run (init Scenario.page) [JobClick (Scenario.click_interview 12)])
    = Some "0"
  ∧ countMsg (run (init Scenario.page) [JobClick (Scenario.click_interview 12)])
    = Some "2 jobs"
  ∧ countMsg (run (init Scenario.page)
                [JobClick (Scenario.click_interview 12);
                 TabClick (Scenario.click_tab 1 "Interview")])
    = Some "1 jobs".
Proof. by vm_compute. Qed.

(** The empty-state block is built when nothing is visible, kept as it
    is on a further empty render, and hidden, not removed, afterwards. *)
Example empty_state_toggling :
  emptyUI (init Scenario.page) = None
  ∧ emptyUI (run (init Scenario.page) [TabClick (Scenario.click_tab 2 "Rejected")])
    = Some {| empty_className := emptyUI_className; empty_display := "flex" |}
  ∧ emptyUI (run (init Scenario.page)
               [TabClick (Scenario.click_tab 2 "Rejected");
                TabClick (Scenario.click_tab 1 "Interview")])
    = Some {| empty_className := emptyUI_className; empty_display := "flex" |}
  ∧ emptyUI (run (init Scenario.page)
               [TabClick (Scenario.click_tab 2 "Rejected");
                TabClick (Scenario.click_tab 0 "All")])
    = Some {| empty_className := emptyUI_className; empty_display := "none" |}.
Proof. by vm_compute. Qed.

(** The sample session: the second card is deleted, the stale
    [deleteJob(7)] changes nothing, and the records and the attached
    entries end in step. *)
Example session_result :
  jobs (run (init Scenario.page) Scenario.session)
  = [ {| element := 10; status := "Rejected" |};
      {| element := 12; status := "Interview" |} ]
  ∧ job_items (run (init Scenario.page) Scenario.session) = [10; 12]
  ∧ dashboard_Total (run (init Scenario.page) Scenario.session) = Some "2".
Proof. by vm_compute. Qed.

(** * Further properties of the controller *)

(** ** What a session never does *)

Lemma updateJobStatus_elements index label w w' :
  updateJobStatus index label w = Some w' →
  element <$> jobs w' = element <$> jobs w.
Proof.
  unfold updateJobStatus.
  destruct (jobAt (jobs w) index) as [job|] eqn:Hat; [|done]. intros [= <-].
  rewrite updateUI_jobs. simpl. rewrite list_fmap_insert. simpl.
  apply list_insert_id. apply jobAt_Some in Hat as [_ Hat].
  by rewrite list_lookup_fmap, Hat.
Qed.

Lemma deleteJob_jobs index w w' :
  deleteJob index w = Some w' → jobs w' = delete (Z.to_nat index) (jobs w).
Proof.
  unfold deleteJob. destruct (jobAt (jobs w) index); [|done]. intros [= <-].
  by rewrite updateUI_jobs.
Qed.

Lemma handleTabClick_jobs e w : jobs (handleTabClick e w) = jobs w.
Proof.
  unfold handleTabClick. destruct (negb _); [done|]. by rewrite renderJobs_jobs.
Qed.

(** X1.  No run of clicks and calls adds or reorders records: the
    elements of the collection after the run are a subsequence of the
    elements before it, so the collection never grows. *)
Theorem collection_never_grows (w : World) (ops : list Op) :
  element <$> jobs (run w ops) `sublist_of` element <$> jobs w
  ∧ (length (jobs (run w ops)) ≤ length (jobs w))%nat.
Proof.
  assert (element <$> jobs (run w ops) `sublist_of` element <$> jobs w) as Hsub.
  { apply (session_run (λ w', element <$> jobs w' `sublist_of` element <$> jobs w)).
    - intros e w0 H. by rewrite handleTabClick_jobs.
    - intros index label w0 w' H Hu. by rewrite (updateJobStatus_elements _ _ _ _ Hu).
    - intros index w0 w' H Hd. rewrite (deleteJob_jobs _ _ _ Hd), list_fmap_delete.
      etrans; [apply sublist_delete|done].
    - done. }
  split; [done|]. apply sublist_length in Hsub. by rewrite !length_fmap in Hsub.
Qed.

Lemma elem_of_insert_inv {A} (l : list A) i x y :
  x ∈ <[i:=y]> l → x = y ∨ x ∈ l.
Proof.
  intros Hin. apply list_elem_of_lookup in Hin as [j Hj].
  destruct (decide (i = j)) as [->|Hne].
  - destruct (decide (j < length l)%nat) as [Hlt|Hge].
    + rewrite list_lookup_insert_eq in Hj by done. left. congruence.
    + rewrite list_insert_ge in Hj by lia. right. by eapply list_elem_of_lookup_2.
  - rewrite list_lookup_insert_ne in Hj by done. right.
    by eapply list_elem_of_lookup_2.
Qed.

(** X2.  A status is never reset: a record that is untouched (status
    ["none"]) after a run was in the collection, untouched, before it. *)
Theorem untouched_records_were_untouched (w : World) (ops : list Op) (job : Job) :
  job ∈ jobs (run w ops) → status job = "none" → job ∈ jobs w.
Proof.
  revert job.
  apply (session_run
           (λ w', ∀ job, job ∈ jobs w' → status job = "none" → job ∈ jobs w)).
  - intros e w0 H job. rewrite handleTabClick_jobs. apply H.
  - intros index label w0 w' H Hu job. unfold updateJobStatus in Hu.
    destruct (jobAt (jobs w0) index) as [job0|]; [|done]. injection Hu as <-.
    rewrite updateUI_jobs. simpl. intros Hin Hs.
    apply elem_of_insert_inv in Hin as [->|Hin]; [|by apply H].
    simpl in Hs. by destruct (newStatus_spec label) as (_ & _ & Hn & _).
  - intros index w0 w' H Hd job. rewrite (deleteJob_jobs _ _ _ Hd).
    intros Hin. apply H. by eapply list_elem_of_delete_inv.
  - done.
Qed.

Lemma untouched_records_were_untouched_witness :
  {| element := 10; status := "none" |}
    ∈ jobs (run (init Scenario.page) [JobClick (Scenario.click_interview 12)])
  ∧ status {| element := 10; status := "none" |} = "none"
  ∧ {| element := 10; status := "none" |} ∈ jobs (init Scenario.page).
Proof.
  assert ({| element := 10; status := "none" |}
            ∈ jobs (run (init Scenario.page)
                      [JobClick (Scenario.click_interview 12)])) as Hin
    by (vm_compute; apply list_elem_of_here).
  split; [exact Hin|]. split; [reflexivity|].
  exact (untouched_records_were_untouched (init Scenario.page)
           [JobClick (Scenario.click_interview 12)]
           {| element := 10; status := "none" |} Hin eq_refl).
Defined.

(** X3.  Both mutations return exactly for an index inside the
    collection: a negative index or one at or past the length makes
    [deleteJob] and [updateJobStatus] throw, with nothing written. *)
Theorem mutations_return_iff_index_in_range (w : World) (i : Z) (label : string) :
  (is_Some (deleteJob i w) ↔ (0 ≤ i < Z.of_nat (length (jobs w)))%Z)
  ∧ (is_Some (updateJobStatus i label w) ↔ (0 ≤ i < Z.of_nat (length (jobs w)))%Z).
Proof.
  split; split.
  - intros Hs. destruct (decide (0 ≤ i < Z.of_nat (length (jobs w)))%Z) as [|Hn];
      [done|]. rewrite (deleteJob_throws _ _ Hn) in Hs. by destruct Hs.
  - intros Hi. destruct (jobAt_valid _ _ Hi) as [job Hat].
    rewrite (deleteJob_unfold _ _ _ Hat). by eexists.
  - intros Hs. destruct (decide (0 ≤ i < Z.of_nat (length (jobs w)))%Z) as [|Hn];
      [done|]. rewrite (updateJobStatus_throws _ _ _ Hn) in Hs. by destruct Hs.
  - intros Hi. destruct (jobAt_valid _ _ Hi) as [job Hat].
    rewrite (updateJobStatus_unfold _ _ _ _ Hat). by eexists.
Qed.

(** ** Initialization *)



Lemma init_elems doc :
  elems (init doc)
  = renderElems "All" (freshJob <$> job_items doc)
      (tagAll (job_items doc) (elems doc)).
Proof. rewrite init_eq, updateUI_elems. reflexivity. Qed.

Lemma init_jobs doc : jobs (init doc) = freshJob <$> job_items doc.
Proof. rewrite init_eq, updateUI_jobs. reflexivity. Qed.

(** X4.  [init] on a well-formed document makes one record per job entry,
    in document order, each with status ["none"], and selects the tab
    ["All"]; it tags every entry ["none"], leaves the tag of every other
    element and every badge as they were, and attaches or detaches
    nothing. *)
Theorem init_builds_collection (doc : World) :
  doc_wf doc →
  jobs (init doc) = (λ el, {| element := el; status := "none" |}) <$> job_items doc
  ∧ currentTab (init doc) = "All"
  ∧ job_items (init doc) = job_items doc
  ∧ Forall (λ h, elems (init doc) !! h ≫= dataset_status = Some "none")
      (job_items doc)
  ∧ (∀ h, h ∉ job_items doc →
          elems (init doc) !! h ≫= dataset_status = elems doc !! h ≫= dataset_status)
  ∧ (∀ h, third_child <$> elems (init doc) !! h = third_child <$> elems doc !! h).
Proof.
  intros [Hnd Hb].
  split; [apply init_jobs|].
  split; [by rewrite init_eq, updateUI_currentTab|].
  split; [by rewrite init_eq, updateUI_job_items|].
  rewrite init_elems. split; [|split].
  - apply Forall_forall. intros h Hin. rewrite renderElems_tag, tagAll_lookup.
    rewrite decide_True by done. rewrite Forall_forall in Hb.
    by destruct (Hb h Hin) as [e ->].
  - intros h Hn. rewrite renderElems_tag, tagAll_lookup. by rewrite decide_False.
  - intros h. rewrite renderElems_third_child, tagAll_lookup.
    case_decide; [|done]. by destruct (elems doc !! h).
Qed.

Lemma init_builds_collection_witness :
  doc_wf Scenario.page
  ∧ jobs (init Scenario.page)
    = (λ el, {| element := el; status := "none" |}) <$> job_items Scenario.page
  ∧ currentTab (init Scenario.page) = "All"
  ∧ job_items (init Scenario.page) = job_items Scenario.page
  ∧ Forall (λ h, elems (init Scenario.page) !! h ≫= dataset_status = Some "none")
      (job_items Scenario.page)
  ∧ (∀ h, h ∉ job_items Scenario.page →
          elems (init Scenario.page) !! h ≫= dataset_status
          = elems Scenario.page !! h ≫= dataset_status)
  ∧ (∀ h, third_child <$> elems (init Scenario.page) !! h
          = third_child <$> elems Scenario.page !! h).
Proof.
  split; [exact Scenario_page_wf|].
  exact (init_builds_collection Scenario.page Scenario_page_wf).
Defined.



(** ** The view over a session *)

Lemma write_text_write_text u v el : write_text v (write_text u el) = write_text v el.
Proof. by destruct el. Qed.








(** ** The empty-state block over a session *)

Lemma toggled_fits n ui :
  match toggled n ui with
  | Some ui' => empty_display ui' = if (n =? 0)%nat then "flex" else "none"
  | None => n ≠ 0
  end.
Proof.
  unfold toggled. destruct (Nat.eqb_spec n 0); by destruct ui.
Qed.

Lemma fits_renderJobs x : empty_state_fits (renderJobs x).
Proof.
  unfold empty_state_fits.
  rewrite renderJobs_emptyUI, renderJobs_currentTab, renderJobs_jobs.
  apply toggled_fits.
Qed.

Lemma fits_in_step doc ops : empty_state_fits (run (init doc) ops).
Proof.
  apply (session_run empty_state_fits).
  - intros e w H. unfold handleTabClick. destruct (negb _); [done|].
    apply fits_renderJobs.
  - intros index label w w' _. unfold updateJobStatus.
    destruct (jobAt (jobs w) index); [|done]. intros [= <-]. apply fits_renderJobs.
  - intros index w w' _. unfold deleteJob.
    destruct (jobAt (jobs w) index); [|done]. intros [= <-]. apply fits_renderJobs.
  - rewrite init_eq. apply fits_renderJobs.
Qed.

(** X7.  At every point of a session started by [init] the empty-state
    block matches the view: when no record is visible under the current
    tab the block exists and is displayed (["flex"]); when some record is
    visible the block is either not built or hidden (["none"]). *)
Theorem empty_state_shown_iff_nothing_visible (doc : World) (ops : list Op) :
  (visibleCount (currentTab (run (init doc) ops)) (jobs (run (init doc) ops)) = 0
   → empty_display <$> emptyUI (run (init doc) ops) = Some "flex")
  ∧ (visibleCount (currentTab (run (init doc) ops)) (jobs (run (init doc) ops)) ≠ 0
     → emptyUI (run (init doc) ops) = None
       ∨ empty_display <$> emptyUI (run (init doc) ops) = Some "none").
Proof.
  pose proof (fits_in_step doc ops) as H. unfold empty_state_fits in H.
  destruct (emptyUI (run (init doc) ops)) as [ui|]; simpl.
  - rewrite H. split.
    + intros ->. done.
    + intros Hn. right. by destruct (Nat.eqb_spec (visibleCount
        (currentTab (run (init doc) ops)) (jobs (run (init doc) ops))) 0).
  - split; [done|]. intros _. by left.
Qed.

Lemma toggled_keeps n ui :
  ∃ ui', toggled n (Some ui) = Some ui'
         ∧ empty_className ui' = empty_className ui.
Proof. unfold toggled. destruct (n =? 0)%nat; by eexists. Qed.

Lemma toggled_class n o ui' :
  toggled n o = Some ui' →
  empty_className ui' = emptyUI_className
  ∨ ∃ ui, o = Some ui ∧ empty_className ui' = empty_className ui.
Proof.
  unfold toggled. destruct (n =? 0)%nat, o as [ui|]; intros [= <-]; simpl;
    eauto.
Qed.

(** X8.  The empty-state block is built at most once and never removed:
    once a block exists, every later world of the session still has it,
    with the class it had; and in a session started by [init] on a page
    without a block, any block there is has the class the script gives
    it. *)
Theorem empty_state_block_is_kept :
  (∀ (w : World) (ops : list Op) (ui : EmptyUI),
     emptyUI w = Some ui →
     ∃ ui', emptyUI (run w ops) = Some ui'
            ∧ empty_className ui' = empty_className ui)
  ∧ (∀ (doc : World) (ops : list Op) (ui : EmptyUI),
       emptyUI doc = None →
       emptyUI (run (init doc) ops) = Some ui →
       empty_className ui = emptyUI_className).
Proof.
  split.
  - intros w ops ui Hui.
    apply (session_run
             (λ w', ∃ ui', emptyUI w' = Some ui'
                           ∧ empty_className ui' = empty_className ui)).
    + intros e w0 (ui0 & H0 & Hc). unfold handleTabClick.
      destruct (negb _); [by eexists|]. rewrite renderJobs_emptyUI. simpl.
      rewrite H0. destruct (toggled_keeps
        (visibleCount (Str.trim (tab_textContent e)) (jobs w0)) ui0)
        as (ui' & -> & Hc'). exists ui'. split; [done|]. congruence.
    + intros index label w0 w' (ui0 & H0 & Hc). unfold updateJobStatus.
      destruct (jobAt (jobs w0) index) as [job|]; [|done]. intros [= <-].
      unfold updateUI. rewrite renderJobs_emptyUI. simpl. rewrite H0.
      match goal with |- context [toggled ?n (Some ui0)] =>
        destruct (toggled_keeps n ui0) as (ui' & -> & Hc') end.
      exists ui'. split; [done|]. congruence.
    + intros index w0 w' (ui0 & H0 & Hc). unfold deleteJob.
      destruct (jobAt (jobs w0) index) as [job|]; [|done]. intros [= <-].
      unfold updateUI. rewrite renderJobs_emptyUI. simpl. rewrite H0.
      match goal with |- context [toggled ?n (Some ui0)] =>
        destruct (toggled_keeps n ui0) as (ui' & -> & Hc') end.
      exists ui'. split; [done|]. congruence.
    + by exists ui.
  - intros doc ops ui Hnone. revert ui.
    apply (session_run
             (λ w', ∀ ui, emptyUI w' = Some ui →
                          empty_className ui = emptyUI_className)).
    + intros e w0 H ui. unfold handleTabClick.
      destruct (negb _); [apply H|]. rewrite renderJobs_emptyUI. simpl.
      intros Ht. apply toggled_class in Ht as [?|(ui0 & H0 & ->)]; [done|].
      by apply H.
    + intros index label w0 w' H Hu ui. unfold updateJobStatus in Hu.
      destruct (jobAt (jobs w0) index) as [job|]; [|done]. injection Hu as <-.
      unfold updateUI. rewrite renderJobs_emptyUI. simpl.
      intros Ht. apply toggled_class in Ht as [?|(ui0 & H0 & ->)]; [done|].
      by apply H.
    + intros index w0 w' H Hd ui. unfold deleteJob in Hd.
      destruct (jobAt (jobs w0) index) as [job|]; [|done]. injection Hd as <-.
      unfold updateUI. rewrite renderJobs_emptyUI. simpl.
      intros Ht. apply toggled_class in Ht as [?|(ui0 & H0 & ->)]; [done|].
      by apply H.
    + intros ui. rewrite init_eq. unfold updateUI. rewrite renderJobs_emptyUI.
      simpl. rewrite Hnone.
      intros Ht. by apply toggled_class in Ht as [?|(ui0 & H0 & _)].
Qed.

Lemma empty_state_block_is_kept_witness :
  emptyUI (run (init Scenario.page) [TabClick (Scenario.click_tab 2 "Rejected")])
  = Some {| empty_className := emptyUI_className; empty_display := "flex" |}
  ∧ ∃ ui',
      emptyUI (run (run (init Scenario.page)
                      [TabClick (Scenario.click_tab 2 "Rejected")])
                 [TabClick (Scenario.click_tab 0 "All")])
      = Some ui'
      ∧ empty_className ui' = emptyUI_className.
Proof.
  assert (emptyUI (run (init Scenario.page)
                     [TabClick (Scenario.click_tab 2 "Rejected")])
          = Some {| empty_className := emptyUI_className;
                    empty_display := "flex" |}) as Hui
    by (vm_compute; reflexivity).
  split; [exact Hui|].
  exact (proj1 empty_state_block_is_kept _
           [TabClick (Scenario.click_tab 0 "All")] _ Hui).
Defined.

Lemma empty_state_shown_iff_nothing_visible_witness :
  visibleCount
    (currentTab (run (init Scenario.page) [TabClick (Scenario.click_tab 2 "Rejected")]))
    (jobs (run (init Scenario.page) [TabClick (Scenario.click_tab 2 "Rejected")]))
  = 0
  ∧ empty_display
      <$> emptyUI (run (init Scenario.page)
                     [TabClick (Scenario.click_tab 2 "Rejected")])
    = Some "flex".
Proof.
  assert (visibleCount
            (currentTab (run (init Scenario.page)
                           [TabClick (Scenario.click_tab 2 "Rejected")]))
            (jobs (run (init Scenario.page)
                     [TabClick (Scenario.click_tab 2 "Rejected")])) = 0) as Hz
    by (vm_compute; reflexivity).
  split; [exact Hz|].
  exact (proj1 (empty_state_shown_iff_nothing_visible Scenario.page
                  [TabClick (Scenario.click_tab 2 "Rejected")]) Hz).
Defined.

(** ** The dashboard over a session *)

Lemma display_shows_write before after n :
  display_shows before after n → after = write_text (Str.ofNat n) before.
Proof.
  intros [Hn Hs]. destruct before as [t|]; simpl.
  - apply Hs. by eexists.
  - by apply Hn.
Qed.


(** ** Tab counts and dashboard counts *)

Lemma visibleCount_status tab js :
  tab ≠ "All" → visibleCount tab js = countStatus tab js.
Proof.
  intros Hne. unfold visibleCount, countStatus. f_equal.
  apply filter_ext_in. intros job _. rewrite isVisible_spec.
  split; [intros [[? _]|?]; done|by right].
Qed.

Lemma visibleCount_All js :
  Forall (λ job, valid_status (status job)) js →
  visibleCount "All" js = countStatus "none" js.
Proof.
  intros Hv. rewrite Forall_forall in Hv.
  unfold visibleCount, countStatus. f_equal.
  apply filter_ext_in. intros job Hin. rewrite isVisible_spec.
  split; [|by left]. intros [[_ ?]|Heq]; [done|].
  destruct (Hv job Hin) as [?|[?|?]]; congruence.
Qed.

Lemma countStatus_partition js :
  Forall (λ job, valid_status (status job)) js →
  countStatus "none" js + countStatus "Interview" js + countStatus "Rejected" js
  = length js.
Proof.
  induction 1 as [|job js Hj _ IH]; [done|].
  rewrite !countStatus_cons. simpl.
  destruct Hj as [-> | [-> | ->]]; simpl; lia.
Qed.

Lemma countStatus_foreign s js :
  Forall (λ job, valid_status (status job)) js →
  ¬ valid_status s → countStatus s js = 0.
Proof.
  intros Hv Hs. induction Hv as [|job js Hj _ IH]; [done|].
  rewrite countStatus_cons, IH. rewrite decide_False; [done|].
  intros Heq. apply Hs. by rewrite <- Heq.
Qed.

(** X10.  The tab count and the dashboard agree throughout a session
    started by [init].  Under ["Interview"] the number of visible records
    is the dashboard's interview count and under ["Rejected"] its rejected
    count; under ["All"] (and likewise under a tab labelled ["none"]) the
    visible records are the untouched ones, so their number plus the
    interview and rejected counts is the total; under any other label
    nothing is visible. *)
Theorem tab_count_agrees_with_dashboard (doc : World) (ops : list Op) :
  (currentTab (run (init doc) ops) = "Interview" →
   visibleCount "Interview" (jobs (run (init doc) ops))
   = Interview (dashboardCounts (jobs (run (init doc) ops))))
  ∧ (currentTab (run (init doc) ops) = "Rejected" →
     visibleCount "Rejected" (jobs (run (init doc) ops))
     = Rejected (dashboardCounts (jobs (run (init doc) ops))))
  ∧ (currentTab (run (init doc) ops) = "All"
     ∨ currentTab (run (init doc) ops) = "none" →
     visibleCount (currentTab (run (init doc) ops)) (jobs (run (init doc) ops))
     + Interview (dashboardCounts (jobs (run (init doc) ops)))
     + Rejected (dashboardCounts (jobs (run (init doc) ops)))
     = Total (dashboardCounts (jobs (run (init doc) ops))))
  ∧ (currentTab (run (init doc) ops) ≠ "All" →
     ¬ valid_status (currentTab (run (init doc) ops)) →
     visibleCount (currentTab (run (init doc) ops)) (jobs (run (init doc) ops)) = 0).
Proof.
  pose proof (valid_jobs_run ops (init doc) (valid_jobs_init doc)) as Hv.
  unfold valid_jobs in Hv. set (w := run (init doc) ops) in *.
  rewrite dashboardCounts_spec. simpl.
  pose proof (countStatus_partition _ Hv) as Hp.
  split; [|split; [|split]].
  - intros _. by apply visibleCount_status.
  - intros _. by apply visibleCount_status.
  - intros [->| ->].
    + rewrite visibleCount_All by done. lia.
    + rewrite visibleCount_status by done. lia.
  - intros Hne Hnv. rewrite visibleCount_status by done.
    by apply countStatus_foreign.
Qed.

Lemma tab_count_agrees_with_dashboard_witness :
  currentTab (run (init Scenario.page) Scenario.session) = "Interview"
  ∧ visibleCount "Interview" (jobs (run (init Scenario.page) Scenario.session))
    = Interview (dashboardCounts (jobs (run (init Scenario.page) Scenario.session))).
Proof.
  assert (currentTab (run (init Scenario.page) Scenario.session) = "Interview")
    as Ht by (vm_compute; reflexivity).
  split; [exact Ht|].
  exact (proj1 (tab_count_agrees_with_dashboard Scenario.page Scenario.session) Ht).
Defined.

(** ** Clicks on a deleted entry *)

Lemma NoDup_delete_notin (l : list nat) i x :
  NoDup l → l !! i = Some x → x ∉ delete i l.
Proof.
  intros Hnd Hl. rewrite <- (filter_ne_delete l i x Hnd Hl).
  intros Hin. by apply list_elem_of_filter in Hin as [Hne _].
Qed.

(** X11.  Once a click in a delete affordance has been handled, the
    entry it landed in has no record any more, and any further click that
    resolves to that entry (whatever its target) changes nothing: there is
    no stale index to act on. *)
Theorem click_on_deleted_entry_is_ignored
    (w : World) (e e' : JobEvent) (h : handle) :
  NoDup (element <$> jobs w) →
  closest_job_item e = Some h →
  in_delete_region e →
  closest_job_item e' = Some h →
  ∃ w1,
    handleJobAction e w = Some w1
    ∧ (h ∉ element <$> jobs w1)
    ∧ handleJobAction e' w1 = Some w1.
Proof.
  intros Hnd Hc Hdel Hc'.
  assert (∀ w1, h ∉ element <$> jobs w1 → handleJobAction e' w1 = Some w1) as Hign.
  { intros w1 Hn. unfold handleJobAction.
    by rewrite Hc', (no_record_findIndex _ _ Hn). }
  destruct (decide (h ∈ element <$> jobs w)) as [Hin|Hn].
  - destruct (record_findIndex _ _ Hin) as (i & job & Hi & Hl & He & _).
    assert (jobAt (jobs w) (Z.of_nat i) = Some job) as Hat
      by (by rewrite jobAt_of_nat).
    assert (closest_fa_trash e || closest_border_rounded_full e = true) as Hor.
    { destruct Hdel as [-> | ->]; [done|by rewrite orb_true_r]. }
    eexists. split; [|split].
    + unfold handleJobAction. rewrite Hc, Hi, Hor.
      destruct (Z.eqb_spec (Z.of_nat i) (-1)); [lia|].
      by apply deleteJob_unfold.
    + rewrite updateUI_jobs. simpl. rewrite Nat2Z.id, list_fmap_delete.
      apply NoDup_delete_notin; [done|]. by rewrite list_lookup_fmap, Hl, <- He.
    + apply Hign. rewrite updateUI_jobs. simpl. rewrite Nat2Z.id, list_fmap_delete.
      apply NoDup_delete_notin; [done|]. by rewrite list_lookup_fmap, Hl, <- He.
  - exists w. split; [|split; [done|by apply Hign]].
    unfold handleJobAction. by rewrite Hc, (no_record_findIndex _ _ Hn).
Qed.

Lemma click_on_deleted_entry_is_ignored_witness :
  NoDup (element <$> jobs (init Scenario.page))
  ∧ closest_job_item (Scenario.click_trash 11) = Some 11
  ∧ in_delete_region (Scenario.click_trash 11)
  ∧ closest_job_item (Scenario.click_interview 11) = Some 11
  ∧ ∃ w1,
      handleJobAction (Scenario.click_trash 11) (init Scenario.page) = Some w1
      ∧ (11 ∉ element <$> jobs w1)
      ∧ handleJobAction (Scenario.click_interview 11) w1 = Some w1.
Proof.
  assert (NoDup (element <$> jobs (init Scenario.page))) as Hnd by compute_done.
  split; [exact Hnd|]. split; [reflexivity|]. split; [by left|].
  split; [reflexivity|].
  exact (click_on_deleted_entry_is_ignored (init Scenario.page)
           (Scenario.click_trash 11) (Scenario.click_interview 11) 11
           Hnd eq_refl (or_introl eq_refl) eq_refl).
Defined.

(** ** Successive status transitions *)

Lemma updateUI_countMsg w :
  countMsg (updateUI w) = write_text (count_text w) (countMsg w).
Proof. unfold updateUI. by rewrite renderJobs_countMsg. Qed.

Lemma updateUI_emptyUI w :
  emptyUI (updateUI w) = toggled (visibleCount (currentTab w) (jobs w)) (emptyUI w).
Proof. unfold updateUI. by rewrite renderJobs_emptyUI. Qed.

Lemma displayOf_elem tab js h :
  h ∈ element <$> js → is_Some (displayOf tab js h).
Proof.
  induction js as [|job js IH] using rev_ind.
  - intros Hin. by apply elem_of_nil in Hin.
  - rewrite fmap_app. intros Hin. unfold displayOf in *.
    rewrite fold_left_app. simpl.
    destruct (decide (element job = h)) as [_|Hne]; [by eexists|].
    apply IH. apply elem_of_app in Hin as [?|Hin]; [done|].
    apply list_elem_of_singleton in Hin. simpl in Hin. congruence.
Qed.

Lemma displayOf_same_elements tab js1 js2 h :
  element <$> js1 = element <$> js2 →
  displayOf tab js2 h = None → displayOf tab js1 h = None.
Proof.
  intros Heq Hnone. apply displayOf_notin. rewrite Heq. intros Hin.
  apply (displayOf_elem tab) in Hin as [d Hd]. congruence.
Qed.

Lemma restyle_over_restyle ns1 ns2 d1 v e :
  paint (Some v)
    (restyleBadge ns2 (set_dataset_status ns2
       (paint d1 (restyleBadge ns1 (set_dataset_status ns1 e)))))
  = paint (Some v) (restyleBadge ns2 (set_dataset_status ns2 e)).
Proof. destruct e as [ds sd [[b|]|]], d1; reflexivity. Qed.

Lemma toggled_over_built n1 n2 ui :
  toggled n2 (toggled n1 (Some ui)) = toggled n2 (Some ui).
Proof. unfold toggled. destruct (n1 =? 0)%nat, (n2 =? 0)%nat; reflexivity. Qed.

(** The store after two transitions of the same record is the store after
    the second alone. *)
Lemma elems_last_status_wins tab js1 js2 h ns1 ns2 m :
  element <$> js1 = element <$> js2 → h ∈ element <$> js2 →
  renderElems tab js2
    (alter (λ e, restyleBadge ns2 (set_dataset_status ns2 e)) h
       (renderElems tab js1
          (alter (λ e, restyleBadge ns1 (set_dataset_status ns1 e)) h m)))
  = renderElems tab js2
      (alter (λ e, restyleBadge ns2 (set_dataset_status ns2 e)) h m).
Proof.
  intros Heq Hin. apply map_eq. intros h'.
  rewrite !renderElems_lookup, !lookup_alter, !renderElems_lookup, !lookup_alter.
  destruct (decide (h = h')) as [<-|Hne].
  - destruct (displayOf_elem tab js2 h Hin) as [v ->].
    rewrite ?decide_True by done.
    destruct (m !! h) as [e|]; [|reflexivity]. simpl. f_equal.
    apply restyle_over_restyle.
  - rewrite ?decide_False by done.
    destruct (m !! h') as [e|]; [|reflexivity]. simpl. f_equal.
    destruct (displayOf tab js2 h') as [v|] eqn:Hd2.
    + by destruct (displayOf tab js1 h').
    + by rewrite (displayOf_same_elements tab js1 js2 h' Heq Hd2).
Qed.

Ltac fields :=
  cbn [currentTab jobs elems job_items emptyUI tabButtons countMsg
       dashboard_Total dashboard_Interview dashboard_Rejected
       with_emptyUI with_elems with_jobs with_job_items with_currentTab
       with_tabButtons with_countMsg with_dashboard element status].

Lemma with_emptyUI_id w : with_emptyUI (emptyUI w) w = w.
Proof. by destruct w. Qed.

(** X12.  The last status transition of a record wins.  For a valid
    index, [updateJobStatus(i, l1)] followed by [updateJobStatus(i, l2)]
    ends in the world that [updateJobStatus(i, l2)] alone produces, in
    every field but the empty-state block; and in that one too when the
    block was already built before the two calls.  (When it was not, the
    first call may build it and the second then leaves it hidden where
    the single call leaves it unbuilt.) *)
Theorem last_status_wins (w : World) (i : Z) (l1 l2 : string) :
  (0 ≤ i < Z.of_nat (length (jobs w)))%Z →
  ∃ w1 w12 w2,
    updateJobStatus i l1 w = Some w1
    ∧ updateJobStatus i l2 w1 = Some w12
    ∧ updateJobStatus i l2 w = Some w2
    ∧ w12 = with_emptyUI (emptyUI w12) w2
    ∧ (is_Some (emptyUI w) → w12 = w2).
Proof.
  intros Hi. destruct (jobAt_valid _ _ Hi) as [job Hat].
  pose proof (updateJobStatus_unfold i l1 w job Hat) as Hu1.
  pose proof (updateJobStatus_jobAt _ _ _ _ _ Hat Hu1) as Hat1.
  pose proof (updateJobStatus_unfold i l2 _ _ Hat1) as Hu12.
  pose proof (updateJobStatus_unfold i l2 w job Hat) as Hu2.
  eexists _, _, _. split; [exact Hu1|]. split; [exact Hu12|].
  split; [exact Hu2|]. clear Hu1 Hu12 Hu2 Hat1.
  apply jobAt_Some in Hat as [H0 Hat].
  assert (Z.to_nat i < length (jobs w))%nat as Hlt by (by eapply lookup_lt_Some).
  fields.
  set (h := element job). set (ns1 := newStatus l1). set (ns2 := newStatus l2).
  set (x1 := with_elems _ (with_jobs _ w)).
  set (x12 := with_elems _ (with_jobs _ (updateUI x1))).
  set (x2 := with_elems (alter _ h (elems w)) (with_jobs _ w)).
  assert (currentTab x12 = currentTab x2) as Htab.
  { unfold x12, x2, x1. fields. by rewrite updateUI_currentTab. }
  assert (jobs x12 = jobs x2) as Hjobs.
  { unfold x12, x2, x1. fields. rewrite updateUI_jobs. fields.
    apply list_insert_insert_eq. }
  assert (elems (updateUI x12) = elems (updateUI x2)) as Helems.
  { rewrite !updateUI_elems, Htab, Hjobs. unfold x12, x2, x1. fields.
    rewrite updateUI_elems. fields.
    apply elems_last_status_wins.
    - rewrite !list_fmap_insert. reflexivity.
    - rewrite list_fmap_insert. fields.
      eapply list_elem_of_lookup_2. apply list_lookup_insert_eq.
      by rewrite length_fmap. }
  assert (countMsg (updateUI x12) = countMsg (updateUI x2)) as Hcount.
  { rewrite !updateUI_countMsg. unfold count_text. rewrite Htab, Hjobs.
    unfold x12, x2, x1. fields.
    by rewrite updateUI_countMsg, write_text_write_text. }
  destruct (updateUI_dashboard x12) as (Ht12 & Hi12 & Hr12).
  destruct (updateUI_dashboard x2) as (Ht2 & Hi2 & Hr2).
  destruct (updateUI_dashboard x1) as (Ht1 & Hi1 & Hr1).
  assert (updateUI x12 = with_emptyUI (emptyUI (updateUI x12)) (updateUI x2))
    as Hcore.
  { apply World_eq; fields.
    - by rewrite !updateUI_currentTab.
    - by rewrite !updateUI_jobs.
    - exact Helems.
    - rewrite !updateUI_job_items. unfold x12, x2, x1. fields.
      by rewrite updateUI_job_items.
    - reflexivity.
    - rewrite !updateUI_tabButtons. unfold x12, x2, x1. fields.
      by rewrite updateUI_tabButtons.
    - exact Hcount.
    - rewrite Ht12, Ht2, Hjobs. unfold x12, x2. fields.
      by rewrite Ht1, write_text_write_text.
    - rewrite Hi12, Hi2, Hjobs. unfold x12, x2. fields.
      by rewrite Hi1, write_text_write_text.
    - rewrite Hr12, Hr2, Hjobs. unfold x12, x2. fields.
      by rewrite Hr1, write_text_write_text. }
  split; [exact Hcore|].
  intros [ui Hui]. rewrite Hcore.
  assert (emptyUI (updateUI x12) = emptyUI (updateUI x2)) as ->.
  { rewrite !updateUI_emptyUI, Htab, Hjobs. unfold x12, x2, x1. fields.
    rewrite updateUI_emptyUI. fields. rewrite Hui. apply toggled_over_built. }
  apply with_emptyUI_id.
Qed.

Lemma last_status_wins_witness :
  (0 ≤ 1 < Z.of_nat (length (jobs (init Scenario.page))))%Z
  ∧ ∃ w1 w12 w2,
      updateJobStatus 1 "interview" (init Scenario.page) = Some w1
      ∧ updateJobStatus 1 "rejected" w1 = Some w12
      ∧ updateJobStatus 1 "rejected" (init Scenario.page) = Some w2
      ∧ w12 = with_emptyUI (emptyUI w12) w2
      ∧ (is_Some (emptyUI (init Scenario.page)) → w12 = w2).
Proof.
  assert (0 ≤ 1 < Z.of_nat (length (jobs (init Scenario.page))))%Z as Hi
    by (vm_compute; split; [discriminate|reflexivity]).
  split; [exact Hi|].
  exact (last_status_wins (init Scenario.page) 1 "interview" "rejected" Hi).
Defined.

(** The block left behind: under the tab ["Rejected"] the only rejected
    record goes to interview and back; the first call builds the block,
    the second hides it, and the single call never builds it. *)
Example hidden_block_left_behind :
  (updateJobStatus 2 "interview" (Mixed.board "Rejected")
     ≫= updateJobStatus 2 "rejected") ≫= emptyUI
  = Some {| empty_className := emptyUI_className; empty_display := "none" |}
  ∧ updateJobStatus 2 "rejected" (Mixed.board "Rejected") ≫= emptyUI = None.
Proof. by vm_compute. Qed.

(** ** Clicking the active tab again *)

Lemma filter_all {A} (P : A → Prop) `{∀ x, Decision (P x)} (l : list A) :
  Forall P l → filter P l = l.
Proof.
  induction 1 as [|x l Hx _ IH]; [done|].
  rewrite filter_cons_True by done. by rewrite IH.
Qed.

Lemma classList_remove_absent tokens cl :
  (∀ c, c ∈ cl → c ∉ tokens) → classList_remove tokens cl = cl.
Proof. intros H. apply filter_all, Forall_forall. exact H. Qed.

Lemma classList_add_one_present t cl : t ∈ cl → classList_add [t] cl = cl.
Proof. intros H. unfold classList_add. simpl. by rewrite decide_True. Qed.

Lemma classList_add_one_absent t cl : t ∉ cl → classList_add [t] cl = cl ++ [t].
Proof. intros H. unfold classList_add. simpl. by rewrite decide_False. Qed.

Lemma classList_remove_app tokens cl1 cl2 :
  classList_remove tokens (cl1 ++ cl2)
  = classList_remove tokens cl1 ++ classList_remove tokens cl2.
Proof. apply filter_app. Qed.

Lemma deemphasize_idem cl : deemphasize (deemphasize cl) = deemphasize cl.
Proof.
  destruct (deemphasize_spec cl) as (Hs & Hb & Ht).
  unfold deemphasize at 1. rewrite classList_remove_absent.
  - by apply classList_add_one_present.
  - intros c Hc Hin. apply elem_of_cons in Hin as [->|Hin]; [done|].
    apply list_elem_of_singleton in Hin as ->. done.
Qed.

(** On a class list without the highlight, [emphasize] strips
    ["btn-soft"] and appends the two highlight classes. *)
Lemma emphasize_plain cl :
  "bg-[#3B82F6]" ∉ cl → "text-white" ∉ cl →
  emphasize cl = classList_remove ["btn-soft"] cl ++ ["bg-[#3B82F6]"; "text-white"].
Proof.
  intros Hb Ht. unfold emphasize, classList_add. simpl.
  set (R := classList_remove ["btn-soft"] cl).
  assert ("bg-[#3B82F6]" ∉ R) as HbR.
  { intros Hin. apply classList_remove_elem in Hin as [? _]. done. }
  assert ("text-white" ∉ R ++ ["bg-[#3B82F6]"]) as HtR.
  { intros Hin. apply elem_of_app in Hin as [Hin|Hin].
    - apply classList_remove_elem in Hin as [? _]. done.
    - by apply list_elem_of_singleton in Hin. }
  rewrite (decide_False (P := "bg-[#3B82F6]" ∈ R)) by done.
  rewrite (decide_False (P := "text-white" ∈ R ++ ["bg-[#3B82F6]"])) by done.
  by rewrite <- app_assoc.
Qed.

Lemma emphasize_again cl :
  emphasize (deemphasize (emphasize (deemphasize cl))) = emphasize (deemphasize cl).
Proof.
  destruct (deemphasize_spec cl) as (_ & Hb & Ht).
  rewrite (emphasize_plain (deemphasize cl) Hb Ht).
  set (Y := classList_remove ["btn-soft"] (deemphasize cl)).
  assert (∀ c, c ∈ Y → c ≠ "btn-soft" ∧ c ≠ "bg-[#3B82F6]" ∧ c ≠ "text-white")
    as HY.
  { intros c Hc. apply classList_remove_elem in Hc as [Hc Hn].
    repeat split; intros ->; try done. apply Hn. by left. }
  assert (deemphasize (Y ++ ["bg-[#3B82F6]"; "text-white"]) = Y ++ ["btn-soft"])
    as ->.
  { unfold deemphasize. rewrite classList_remove_app.
    rewrite (classList_remove_absent _ Y).
    - change (classList_remove ["bg-[#3B82F6]"; "text-white"]
                ["bg-[#3B82F6]"; "text-white"]) with (@nil string).
      rewrite app_nil_r. apply classList_add_one_absent.
      intros Hin. by destruct (HY _ Hin) as (? & _).
    - intros c Hc Hin. destruct (HY c Hc) as (_ & ? & ?).
      apply elem_of_cons in Hin as [?|Hin]; [done|].
      by apply list_elem_of_singleton in Hin. }
  rewrite emphasize_plain.
  - rewrite classList_remove_app, (classList_remove_absent _ Y).
    + change (classList_remove ["btn-soft"] ["btn-soft"]) with (@nil string).
      by rewrite app_nil_r.
    + intros c Hc Hin. destruct (HY c Hc) as (? & _).
      by apply list_elem_of_singleton in Hin.
  - intros Hin. apply elem_of_app in Hin as [Hin|Hin].
    + by destruct (HY _ Hin) as (_ & ? & _).
    + by apply list_elem_of_singleton in Hin.
  - intros Hin. apply elem_of_app in Hin as [Hin|Hin].
    + by destruct (HY _ Hin) as (_ & _ & ?).
    + by apply list_elem_of_singleton in Hin.
Qed.

Lemma highlighted_idem target tb :
  highlighted target (highlighted target tb) = highlighted target tb.
Proof.
  apply list_eq. intros j. destruct target as [i|]; simpl.
  - rewrite !list_lookup_alter, !list_lookup_fmap, !list_lookup_alter,
      !list_lookup_fmap.
    destruct (decide (i = j)) as [->|Hne].
    + rewrite ?decide_True by done.
      destruct (tb !! j) as [cl|]; [|reflexivity]. simpl. f_equal.
      apply emphasize_again.
    + rewrite ?decide_False by done.
      destruct (tb !! j) as [cl|]; [|reflexivity]. simpl. f_equal.
      apply deemphasize_idem.
  - rewrite !list_lookup_fmap. destruct (tb !! j) as [cl|]; [|reflexivity].
    simpl. f_equal. apply deemphasize_idem.
Qed.

Lemma handleTabClick_highlighted e w :
  tab_tagName e = "BUTTON" →
  handleTabClick e w
  = renderJobs
      (with_currentTab (Str.trim (tab_textContent e))
         (with_tabButtons (highlighted (tab_button e) (tabButtons w)) w)).
Proof. intros H. by rewrite (handleTabClick_unfold e w H). Qed.

(** X13.  Clicking a tab twice is clicking it once: a second
    [handleTabClick] with the same target leaves every field as the first
    one left it (selection, class lists of the tab buttons, displays,
    count message, empty-state block). *)
Theorem handleTabClick_idempotent (e : TabEvent) (w : World) :
  handleTabClick e (handleTabClick e w) = handleTabClick e w.
Proof.
  destruct (String.eqb_spec (tab_tagName e) "BUTTON") as [Hb|Hb].
  - rewrite (handleTabClick_highlighted e w Hb).
    set (x := with_currentTab _ (with_tabButtons _ w)).
    rewrite (handleTabClick_highlighted e (renderJobs x) Hb).
    rewrite renderJobs_tabButtons.
    change (tabButtons x) with (highlighted (tab_button e) (tabButtons w)).
    rewrite highlighted_idem.
    match goal with |- renderJobs ?y = _ =>
      replace y with (renderJobs x); [apply renderJobs_idem|] end.
    apply World_eq; fields; try reflexivity.
    + by rewrite renderJobs_currentTab.
    + by rewrite renderJobs_tabButtons.
  - by rewrite !(handleTabClick_ignored e _ Hb).
Qed.

(** ** What a click on a status button does *)

(** X14.  A click outside the delete affordances on a button whose
    trimmed label reads, in any letter case, "interview" or "rejected",
    inside an entry that has a record, sets exactly that record (the first
    one pointing to the entry: no record before it does) to ["Interview"]
    or ["Rejected"] respectively, and leaves every other record, and the
    length of the collection, as they were. *)
Theorem status_click_sets_status
    (w : World) (e : JobEvent) (h : handle) (label : string) :
  closest_job_item e = Some h →
  h ∈ element <$> jobs w →
  ¬ in_delete_region e →
  is_status_control e label →
  ∃ w' i job s,
    handleJobAction e w = Some w'
    ∧ jobs w !! i = Some job ∧ element job = h
    ∧ (∀ (k : nat) job', jobs w !! k = Some job' → (k < i)%nat → element job' ≠ h)
    ∧ jobs w' = <[i := {| element := h; status := s |}]> (jobs w)
    ∧ ((label = "interview" ∧ s = "Interview")
       ∨ (label = "rejected" ∧ s = "Rejected")).
Proof.
  intros Hc Hin Hnd (Hb & Hl & Hlab).
  destruct (record_findIndex _ _ Hin) as (i & job & Hi & Hjob & He & Hfirst).
  assert (jobAt (jobs w) (Z.of_nat i) = Some job) as Hat
    by (by rewrite jobAt_of_nat).
  assert (closest_fa_trash e || closest_border_rounded_full e = false) as Hor.
  { apply orb_false_iff. split.
    - destruct (closest_fa_trash e) eqn:H; [|done]. exfalso. apply Hnd. by left.
    - destruct (closest_border_rounded_full e) eqn:H; [|done].
      exfalso. apply Hnd. by right. }
  assert (String.eqb label "interview" || String.eqb label "rejected" = true)
    as Hlor.
  { destruct Hlab as [-> | ->]; reflexivity. }
  exists (updateUI
            (with_elems
               (alter (λ e0, restyleBadge (newStatus label)
                               (set_dataset_status (newStatus label) e0))
                  (element job) (elems w))
               (with_jobs
                  (<[Z.to_nat (Z.of_nat i) :=
                       {| element := element job; status := newStatus label |}]>
                     (jobs w)) w))), i, job, (newStatus label).
  split; [|split; [done|split; [done|split; [exact Hfirst|split]]]].
  - unfold handleJobAction. rewrite Hc, Hi, Hor.
    destruct (Z.eqb_spec (Z.of_nat i) (-1)); [lia|].
    rewrite Hb. simpl. rewrite <- Hl, Hlor.
    by apply updateJobStatus_unfold.
  - rewrite updateUI_jobs. fields. by rewrite Nat2Z.id, He.
  - destruct Hlab as [-> | ->]; [left|right]; done.
Qed.

Lemma status_click_sets_status_witness :
  closest_job_item (Scenario.click_interview 11) = Some 11
  ∧ 11 ∈ element <$> jobs (init Scenario.page)
  ∧ ¬ in_delete_region (Scenario.click_interview 11)
  ∧ is_status_control (Scenario.click_interview 11) "interview"
  ∧ ∃ w' i job s,
      handleJobAction (Scenario.click_interview 11) (init Scenario.page) = Some w'
      ∧ jobs (init Scenario.page) !! i = Some job ∧ element job = 11
      ∧ (∀ (k : nat) job',
           jobs (init Scenario.page) !! k = Some job' → (k < i)%nat →
           element job' ≠ 11)
      ∧ jobs w' = <[i := {| element := 11; status := s |}]> (jobs (init Scenario.page))
      ∧ (("interview" = "interview" ∧ s = "Interview")
         ∨ ("interview" = "rejected" ∧ s = "Rejected")).
Proof.
  assert (11 ∈ element <$> jobs (init Scenario.page)) as Hin.
  { vm_compute. apply list_elem_of_In. simpl. auto. }
  assert (¬ in_delete_region (Scenario.click_interview 11)) as Hnd
    by (intros [H|H]; discriminate H).
  assert (is_status_control (Scenario.click_interview 11) "interview") as Hsc
    by (repeat split; by left).
  split; [reflexivity|]. split; [exact Hin|]. split; [exact Hnd|].
  split; [exact Hsc|].
  exact (status_click_sets_status (init Scenario.page)
           (Scenario.click_interview 11) 11 "interview" eq_refl Hin Hnd Hsc).
Defined.

(** ** Page load *)

Lemma registerCards_ok cards d :
  snd (registerCards cards d) = true
  ↔ Forall (λ card, is_Some (card_h3 card)) cards.
Proof.
  revert d. induction cards as [|card cards IH]; intros d; simpl.
  - split; [by constructor|done].
  - destruct (card_h3 card) as [text|] eqn:Hh.
    + rewrite IH. split.
      * intros H. constructor; [by rewrite Hh|done].
      * by intros [_ H]%Forall_cons.
    + split; [done|]. intros [[? Hs] _]%Forall_cons. by rewrite Hh in Hs.
Qed.

Lemma display_of_insert d k v key :
  display_of (<[k := v]> d) key = if decide (k = key) then v else display_of d key.
Proof.
  unfold display_of. rewrite lookup_insert. by case_decide.
Qed.

Lemma registerCards_display cards d key :
  Forall (λ card, is_Some (card_h3 card)) cards →
  display_of (fst (registerCards cards d)) key
  = match last (filter (titled key) cards) with
    | Some card => card_p card
    | None => display_of d key
    end.
Proof.
  intros Hall. revert d. induction Hall as [|card cards [text Hh] _ IH];
    intros d; simpl; [done|].
  rewrite Hh, IH, display_of_insert.
  destruct (decide (titled key card)) as [Ht|Ht].
  - rewrite filter_cons_True, last_cons by done.
    destruct (last (filter (titled key) cards)); [done|].
    unfold titled in Ht. rewrite Hh in Ht. injection Ht as ->.
    by rewrite decide_True.
  - rewrite filter_cons_False by done.
    destruct (last (filter (titled key) cards)); [done|].
    rewrite decide_False; [done|]. intros Heq. apply Ht.
    unfold titled. by rewrite Hh, <- Heq.
Qed.

Lemma display_of_DOM_dashboard key : display_of DOM_dashboard key = None.
Proof.
  unfold display_of, DOM_dashboard. rewrite !lookup_insert.
  repeat case_decide; done.
Qed.

Lemma registerCards_keys cards :
  Forall (λ card, is_Some (card_h3 card)) cards →
  snd (registerCards cards DOM_dashboard) = true
  ∧ ∀ key,
      display_of (fst (registerCards cards DOM_dashboard)) key
      = last (filter (titled key) cards) ≫= card_p.
Proof.
  intros Hall. split; [by apply registerCards_ok|]. intros key.
  rewrite (registerCards_display _ _ _ Hall), display_of_DOM_dashboard.
  by destruct (last _).
Qed.

(** X15.  When every dashboard card has a heading, registration runs
    through, and for each of the three keys [DOM.dashboard] declares
    (["Total"], ["Interview"], ["Rejected"]) the display kept is the
    paragraph of the last card whose trimmed heading is that key; it is
    missing when no card is titled so, or when that last card has no
    paragraph. *)
Theorem dashboard_last_card_wins (cards : list Card) :
  Forall (λ card, is_Some (card_h3 card)) cards →
  snd (registerCards cards DOM_dashboard) = true
  ∧ ∀ key,
      key = "Total" ∨ key = "Interview" ∨ key = "Rejected" →
      display_of (fst (registerCards cards DOM_dashboard)) key
      = last (filter (titled key) cards) ≫= card_p.
Proof.
  intros Hall. destruct (registerCards_keys cards Hall) as [Hok Hd].
  split; [exact Hok|]. intros key _. apply Hd.
Qed.

Lemma doubled_cards_headed :
  Forall (λ card, is_Some (card_h3 card)) doubled_cards.
Proof. repeat constructor; by eexists. Defined.

Lemma dashboard_last_card_wins_witness :
  Forall (λ card, is_Some (card_h3 card)) doubled_cards
  ∧ snd (registerCards doubled_cards DOM_dashboard) = true
  ∧ display_of (fst (registerCards doubled_cards DOM_dashboard)) "Total"
    = last (filter (titled "Total") doubled_cards) ≫= card_p.
Proof.
  split; [exact doubled_cards_headed|].
  destruct (dashboard_last_card_wins doubled_cards doubled_cards_headed)
    as [Hok Hd].
  split; [exact Hok|]. exact (Hd "Total" (or_introl eq_refl)).
Defined.

Example doubled_cards_displays :
  display_of (fst (registerCards doubled_cards DOM_dashboard)) "Total" = Some "second"
  ∧ display_of (fst (registerCards doubled_cards DOM_dashboard)) "Interview" = Some "-"
  ∧ display_of (fst (registerCards doubled_cards DOM_dashboard)) "Rejected" = None.
Proof. by vm_compute. Qed.

Lemma boot_Started_inv p w :
  boot p = Started w →
  snd (registerCards (page_cards p) DOM_dashboard) = true
  ∧ page_container p = true ∧ page_tabs p = true.
Proof.
  unfold boot. destruct (snd (registerCards _ _)); [|done].
  destruct (page_container p); [|done]. by destruct (page_tabs p).
Qed.

(** X16.  The load handler runs to its end exactly when every dashboard
    card has a heading and the page has both the job container and the
    tab bar; the world it then leaves is the one [init] produces from the
    document with the registered dashboard displays. *)
Theorem boot_starts (p : Page) :
  ((∃ w, boot p = Started w)
   ↔ Forall (λ card, is_Some (card_h3 card)) (page_cards p)
     ∧ page_container p = true ∧ page_tabs p = true)
  ∧ (∀ w, boot p = Started w → w = init (registered_doc p)).
Proof.
  assert (Forall (λ card, is_Some (card_h3 card)) (page_cards p) →
          page_container p = true → page_tabs p = true →
          boot p = Started (init (registered_doc p))) as Hstart.
  { intros Hall Hc Ht.
    destruct (registerCards_keys (page_cards p) Hall) as [Hok Hd].
    unfold boot. rewrite Hok, Hc, Ht, !Hd. reflexivity. }
  split; [split|].
  - intros [w Hw]. apply boot_Started_inv in Hw as (Hok & Hc & Ht).
    by apply registerCards_ok in Hok.
  - intros (Hall & Hc & Ht). eexists. by apply Hstart.
  - intros w Hw. pose proof Hw as Hw'.
    apply boot_Started_inv in Hw' as (Hok & Hc & Ht).
    apply registerCards_ok in Hok. rewrite (Hstart Hok Hc Ht) in Hw. congruence.
Qed.

(** X17.  Without a tab bar (cards and container being in order, on a
    well-formed document) the load handler throws half-way: a record has
    been pushed for every job entry and every entry is tagged ["none"],
    but nothing is rendered: displays, count message, dashboard
    paragraphs and empty-state block are as the markup had them. *)
Theorem boot_without_tab_bar (p : Page) :
  Forall (λ card, is_Some (card_h3 card)) (page_cards p) →
  page_container p = true →
  page_tabs p = false →
  doc_wf (page_doc p) →
  ∃ w,
    boot p = Failed w
    ∧ jobs w
      = (λ el, {| element := el; status := "none" |}) <$> job_items (page_doc p)
    ∧ Forall (λ h, elems w !! h ≫= dataset_status = Some "none")
        (job_items (page_doc p))
    ∧ (∀ h, style_display <$> elems w !! h
            = style_display <$> elems (page_doc p) !! h)
    ∧ countMsg w = countMsg (page_doc p)
    ∧ emptyUI w = emptyUI (page_doc p)
    ∧ dashboard_Total w = last (filter (titled "Total") (page_cards p)) ≫= card_p
    ∧ dashboard_Interview w
      = last (filter (titled "Interview") (page_cards p)) ≫= card_p
    ∧ dashboard_Rejected w
      = last (filter (titled "Rejected") (page_cards p)) ≫= card_p.
Proof.
  intros Hall Hc Ht [Hnd Hb].
  destruct (registerCards_keys (page_cards p) Hall) as [Hok Hd].
  eexists. split.
  { unfold boot. rewrite Hok, Hc, Ht. simpl. reflexivity. }
  rewrite pushJob_fold. fields. rewrite !Hd.
  split; [reflexivity|]. split; [|split].
  - apply Forall_forall. intros h Hin. rewrite tagAll_lookup, decide_True by done.
    rewrite Forall_forall in Hb. by destruct (Hb h Hin) as [e ->].
  - intros h. rewrite tagAll_lookup. case_decide; [|done].
    by destruct (elems (page_doc p) !! h).
  - done.
Qed.

(** X18.  A dashboard card without heading, or a missing job container,
    stops the load handler before anything is written: no record is made,
    and no element, count message or empty-state block is touched. *)
Theorem boot_fails_before_init (p : Page) :
  ¬ Forall (λ card, is_Some (card_h3 card)) (page_cards p)
  ∨ page_container p = false →
  ∃ w,
    boot p = Failed w
    ∧ jobs w = []
    ∧ elems w = elems (page_doc p)
    ∧ job_items w = job_items (page_doc p)
    ∧ countMsg w = countMsg (page_doc p)
    ∧ emptyUI w = emptyUI (page_doc p)
    ∧ tabButtons w = tabButtons (page_doc p).
Proof.
  intros Hbad. unfold boot.
  destruct (snd (registerCards (page_cards p) DOM_dashboard)) eqn:Hok; simpl.
  - destruct Hbad as [Hn| ->].
    + exfalso. apply Hn. by apply (registerCards_ok _ DOM_dashboard).
    + simpl. by eexists.
  - by eexists.
Qed.

Lemma boot_without_tab_bar_witness :
  Forall (λ card, is_Some (card_h3 card)) (page_cards tabless_page)
  ∧ page_container tabless_page = true
  ∧ page_tabs tabless_page = false
  ∧ doc_wf (page_doc tabless_page)
  ∧ ∃ w,
      boot tabless_page = Failed w
      ∧ jobs w
        = (λ el, {| element := el; status := "none" |})
            <$> job_items (page_doc tabless_page)
      ∧ Forall (λ h, elems w !! h ≫= dataset_status = Some "none")
          (job_items (page_doc tabless_page))
      ∧ (∀ h, style_display <$> elems w !! h
              = style_display <$> elems (page_doc tabless_page) !! h)
      ∧ countMsg w = countMsg (page_doc tabless_page)
      ∧ emptyUI w = emptyUI (page_doc tabless_page)
      ∧ dashboard_Total w
        = last (filter (titled "Total") (page_cards tabless_page)) ≫= card_p
      ∧ dashboard_Interview w
        = last (filter (titled "Interview") (page_cards tabless_page)) ≫= card_p
      ∧ dashboard_Rejected w
        = last (filter (titled "Rejected") (page_cards tabless_page)) ≫= card_p.
Proof.
  split; [exact doubled_cards_headed|]. split; [reflexivity|].
  split; [reflexivity|]. split; [exact Scenario_page_wf|].
  exact (boot_without_tab_bar tabless_page doubled_cards_headed eq_refl eq_refl
           Scenario_page_wf).
Defined.

Lemma boot_fails_before_init_witness :
  (¬ Forall (λ card, is_Some (card_h3 card)) (page_cards containerless_page)
   ∨ page_container containerless_page = false)
  ∧ ∃ w,
      boot containerless_page = Failed w
      ∧ jobs w = []
      ∧ elems w = elems (page_doc containerless_page)
      ∧ job_items w = job_items (page_doc containerless_page)
      ∧ countMsg w = countMsg (page_doc containerless_page)
      ∧ emptyUI w = emptyUI (page_doc containerless_page)
      ∧ tabButtons w = tabButtons (page_doc containerless_page).
Proof.
  split; [by right|].
  exact (boot_fails_before_init containerless_page (or_intror eq_refl)).
Defined.

(** The loaded page starts, with the second "Total" card as display. *)
Example loaded_page_starts :
  ∃ w, boot loaded_page = Started w
       ∧ dashboard_Total w = Some "3"
       ∧ dashboard_Interview w = Some "0"
       ∧ dashboard_Rejected w = None
       ∧ countMsg w = Some "3 jobs".
Proof. eexists. split; [by vm_compute|]. by vm_compute. Qed.

(** ** Tabs and data are independent *)

Lemma step_jobs_congr w1 w2 op :
  jobs w1 = jobs w2 → jobs (step w1 op) = jobs (step w2 op).
Proof.
  intros Heq.
  assert (∀ index, jobs (settle w1 (deleteJob index w1))
                   = jobs (settle w2 (deleteJob index w2))) as Hdel.
  { intros index. unfold deleteJob. rewrite <- Heq.
    destruct (jobAt (jobs w1) index); simpl; [|done].
    rewrite !updateUI_jobs. fields. by rewrite Heq. }
  assert (∀ index label, jobs (settle w1 (updateJobStatus index label w1))
                         = jobs (settle w2 (updateJobStatus index label w2)))
    as Hupd.
  { intros index label. unfold updateJobStatus. rewrite <- Heq.
    destruct (jobAt (jobs w1) index); simpl; [|done].
    rewrite !updateUI_jobs. fields. by rewrite Heq. }
  destruct op as [e|e|index label|index]; simpl.
  - by rewrite !handleTabClick_jobs.
  - unfold handleJobAction. rewrite <- Heq.
    destruct (closest_job_item e) as [jobEl|]; [|done].
    destruct (_ =? -1)%Z; [done|].
    destruct (_ || _); [apply Hdel|].
    destruct (String.eqb (tagName e) "BUTTON"); [|done].
    destruct (_ || _); [apply Hupd|done].
  - apply Hupd.
  - apply Hdel.
Qed.

Lemma run_jobs_without_tabs ops w1 w2 :
  jobs w1 = jobs w2 →
  jobs (run w1 ops) = jobs (run w2 (filter (λ op, touchesData op = true) ops)).
Proof.
  revert w1 w2. induction ops as [|op ops IH]; intros w1 w2 Heq; [done|].
  simpl. destruct (touchesData op) eqn:Ht.
  - rewrite filter_cons_True by done. simpl. apply IH. by apply step_jobs_congr.
  - rewrite filter_cons_False by (by rewrite Ht). apply IH.
    destruct op; try discriminate. simpl. by rewrite handleTabClick_jobs.
Qed.

(** X19.  Tab clicks never influence the data: the collection a session
    ends with (records, their order and statuses) is the one the same
    session ends with when its tab clicks are left out, and so are the
    counts the dashboard shows. *)
Theorem tabs_do_not_influence_data (doc : World) (ops : list Op) :
  jobs (run (init doc) ops)
  = jobs (run (init doc) (filter (λ op, touchesData op = true) ops))
  ∧ dashboard_Total (run (init doc) ops)
    = dashboard_Total (run (init doc) (filter (λ op, touchesData op = true) ops))
  ∧ dashboard_Interview (run (init doc) ops)
    = dashboard_Interview
        (run (init doc) (filter (λ op, touchesData op = true) ops))
  ∧ dashboard_Rejected (run (init doc) ops)
    = dashboard_Rejected
        (run (init doc) (filter (λ op, touchesData op = true) ops)).
Proof.
  pose proof (run_jobs_without_tabs ops (init doc) (init doc) eq_refl) as Hj.
  destruct (dashboard_tracks_collection doc ops) as (Ht & Hi & Hr).
  destruct (dashboard_tracks_collection doc
              (filter (λ op, touchesData op = true) ops)) as (Ht' & Hi' & Hr').
  split; [exact Hj|].
  rewrite (display_shows_write _ _ _ Ht), (display_shows_write _ _ _ Hi),
    (display_shows_write _ _ _ Hr), (display_shows_write _ _ _ Ht'),
    (display_shows_write _ _ _ Hi'), (display_shows_write _ _ _ Hr').
  by rewrite Hj.
Qed.
